(** * Permission-gated capabilities of the React Native practice app

    A shallow embedding of the three screens of the application
    (location tracker, camera, login/register form) and the properties of
    the permission-gated resource-acquisition pattern they share.

    The screens are React function components: their state lives in
    [useState] cells, their handlers are [async] functions that call the
    platform (expo-location, expo-camera, expo-media-library,
    expo-secure-store, [fetch]) and write the cells.  A handler is
    embedded as a computation in a small monad [Js] that threads

    - the component state (the [useState] cells),
    - the part of the platform state the screen can change, and
    - a log of every platform call, alert and console line, each entry
      stamped with the component state at the moment it was issued,

    and that completes either normally or by a thrown exception, so that
    [try]/[catch]/[finally] can be written as in the source.  What the
    platform answers to a call is not decided by the application: it is an
    input ([Env]) of every handler.  Each handler is run to completion
    before the next one starts. *)

From Stdlib Require Import QArith.QArith_base.
From stdpp Require Import base option list numbers gmap strings.

Open Scope string_scope.

(** ** Completions and the [Js] monad *)

(** The outcome of an awaited promise, or of a block: a value, or a
    thrown error. *)
Inductive Completion (A : Type) : Type :=
  | Normal (a : A)
  | Thrown (err : string).
Arguments Normal {A} a.
Arguments Thrown {A} err.

Record World (S O E : Type) : Type := MkWorld {
  ui : S;                  (* the useState cells of the component *)
  platform : O;            (* platform state the component can change *)
  log : list (S * E)       (* effects issued so far, oldest first *)
}.
Arguments MkWorld {S O E} ui platform log.
Arguments ui {S O E} w.
Arguments platform {S O E} w.
Arguments log {S O E} w.

Definition Js (S O E A : Type) : Type :=
  World S O E → Completion A * World S O E.

Section JsMonad.
Context {S O E : Type}.

Definition js_ret {A} (a : A) : Js S O E A := λ w, (Normal a, w).

Definition js_bind {A B} (k : A → Js S O E B) (m : Js S O E A) : Js S O E B :=
  λ w, match m w with
       | (Normal a, w1) => k a w1
       | (Thrown e, w1) => (Thrown e, w1)
       end.

Definition throw {A} (e : string) : Js S O E A := λ w, (Thrown e, w).

(** The values the handler's closure sees. *)
Definition getState : Js S O E S := λ w, (Normal (ui w), w).

(** A [setX(...)] call of a [useState] cell. *)
Definition setState (f : S → S) : Js S O E unit :=
  λ w, (Normal tt, MkWorld (f (ui w)) (platform w) (log w)).

Definition setPlatform (f : O → O) : Js S O E unit :=
  λ w, (Normal tt, MkWorld (ui w) (f (platform w)) (log w)).

Definition getPlatform : Js S O E O := λ w, (Normal (platform w), w).

(** A call with no result the code uses (Alert.alert, console.log). *)
Definition emit (e : E) : Js S O E unit :=
  λ w, (Normal tt, MkWorld (ui w) (platform w) (log w ++ [(ui w, e)])).

(** [await call]: the call is issued, then the promise settles the way
    the platform decides. *)
Definition await {A} (e : E) (outcome : Completion A) : Js S O E A :=
  λ w, (outcome, MkWorld (ui w) (platform w) (log w ++ [(ui w, e)])).

(** [try { body } catch (error) { handler }] *)
Definition try_catch {A} (body : Js S O E A) (handler : string → Js S O E A)
  : Js S O E A :=
  λ w, match body w with
       | (Normal a, w1) => (Normal a, w1)
       | (Thrown e, w1) => handler e w1
       end.

(** [try { body } finally { fin }] *)
Definition try_finally {A} (body : Js S O E A) (fin : Js S O E unit)
  : Js S O E A :=
  λ w, let '(c, w1) := body w in
       match fin w1 with
       | (Normal _, w2) => (c, w2)
       | (Thrown e, w2) => (Thrown e, w2)
       end.

(** The world a handler leaves behind, and the events it has logged. *)
Definition exec {A} (m : Js S O E A) (w : World S O E) : World S O E := (m w).2.
Definition result {A} (m : Js S O E A) (w : World S O E) : Completion A := (m w).1.
Definition events (w : World S O E) : list E := (log w).*2.

(** The events a handler issues when it is started in [w]: its log,
    begun empty. *)
Definition issued {A} (m : Js S O E A) (w : World S O E) : list E :=
  events (exec m (MkWorld (ui w) (platform w) [])).
End JsMonad.

Global Instance Js_ret {S O E} : MRet (Js S O E) := @js_ret S O E.
Global Instance Js_bind {S O E} : MBind (Js S O E) := @js_bind S O E.

Notation "'try' body 'catch' handler 'finally' fin" :=
  (try_finally (try_catch body handler) fin)
  (at level 10, body at level 200, handler at level 200, fin at level 200,
   only parsing).

(** ** Permission status, as the platform reports it *)

Inductive PermissionStatus : Type := Granted | Denied | Undetermined.

Global Instance PermissionStatus_eq_dec : EqDecision PermissionStatus.
Proof. solve_decision. Defined.

(** [status === 'granted'] *)
Definition is_granted (st : PermissionStatus) : bool :=
  match st with Granted => true | _ => false end.

(** JavaScript truthiness of a string-or-null value. *)
Definition truthy (v : option string) : bool :=
  match v with
  | None => false
  | Some s => negb (String.eqb s "")
  end.

(** ** The location screen

    [LocationScreen], the component of [src/unnamed/part_001] (its lines
    are the source lines quoted below). *)

Module LocationScreen.

Record Coords : Type := MkCoords {
  latitude : Q;
  longitude : Q;
  altitude : option Q;
  accuracy : option Q;
  speed : option Q;
  heading : option Q
}.

Record LocationObject : Type := MkLocation {
  coords : Coords;
  timestamp : Z
}.

Record Region : Type := MkRegion {
  region_latitude : Q;
  region_longitude : Q;
  latitudeDelta : Q;
  longitudeDelta : Q
}.

(** The [useState] cells of the component.  A subscription object is
    identified by the number the platform gave it. *)
Record State : Type := MkState {
  location : option LocationObject;
  errorMsg : option string;
  isLoading : bool;
  permissionStatus : option PermissionStatus;
  isTracking : bool;
  locationSubscription : option nat;
  mapRegion : Region
}.

Definition initialState : State :=
  MkState None None false None false None
          (MkRegion 37.78825 (-122.4324) 0.0922 0.0421).

Definition setLocation v (s : State) : State :=
  MkState v (errorMsg s) (isLoading s) (permissionStatus s) (isTracking s)
          (locationSubscription s) (mapRegion s).
Definition setErrorMsg v (s : State) : State :=
  MkState (location s) v (isLoading s) (permissionStatus s) (isTracking s)
          (locationSubscription s) (mapRegion s).
Definition setIsLoading v (s : State) : State :=
  MkState (location s) (errorMsg s) v (permissionStatus s) (isTracking s)
          (locationSubscription s) (mapRegion s).
Definition setPermissionStatus v (s : State) : State :=
  MkState (location s) (errorMsg s) (isLoading s) v (isTracking s)
          (locationSubscription s) (mapRegion s).
Definition setIsTracking v (s : State) : State :=
  MkState (location s) (errorMsg s) (isLoading s) (permissionStatus s) v
          (locationSubscription s) (mapRegion s).
Definition setLocationSubscription v (s : State) : State :=
  MkState (location s) (errorMsg s) (isLoading s) (permissionStatus s) (isTracking s)
          v (mapRegion s).
Definition setMapRegion v (s : State) : State :=
  MkState (location s) (errorMsg s) (isLoading s) (permissionStatus s) (isTracking s)
          (locationSubscription s) v.

(** What the screen can change in the location subsystem: the position
    subscriptions that are registered, and the number the next one gets. *)
Record LocationOS : Type := MkOS {
  live : gset nat;
  next_id : nat
}.

Inductive Event : Type :=
  | GetForegroundPermissionsAsync
  | RequestForegroundPermissionsAsync
  | GetCurrentPositionAsync
  | WatchPositionAsync
  | SubscriptionRemove (id : nat)
  | AlertAlert (title message : string)
  | ConsoleError (label : string)
  | ConsoleLog (label : string).

(** The answers of the platform to the calls one handler can make. *)
Record Env : Type := MkEnv {
  getForegroundPermissions : Completion PermissionStatus;
  requestForegroundPermissions : Completion PermissionStatus;
  getCurrentPosition : Completion LocationObject;
  watchPosition : Completion ()
}.

Abbreviation Handler A := (Js State LocationOS Event A).
Abbreviation W := (World State LocationOS Event).

(** [Location.watchPositionAsync(options, callback)]: on success the
    platform registers a new subscription and hands it back. *)
Definition watchPositionAsync (env : Env) : Handler nat :=
  _ ← await WatchPositionAsync (watchPosition env);
  os ← getPlatform;
  setPlatform (λ o, MkOS ({[next_id o]} ∪ live o) (S (next_id o)));;
  mret (next_id os).

(** [subscription.remove()]: unregisters; nothing happens when the
    subscription is no longer registered. *)
Definition subscription_remove (id : nat) : Handler () :=
  emit (SubscriptionRemove id);;
  setPlatform (λ o, MkOS (live o ∖ {[id]}) (next_id o)).

(** Source lines 99-121. *)
Definition getCurrentLocation (env : Env) : Handler () :=
  setState (setIsLoading true);;
  setState (setErrorMsg None);;
  try (
    locationData ← await GetCurrentPositionAsync (getCurrentPosition env);
    setState (setLocation (Some locationData));;
    setState (setMapRegion
                (MkRegion (latitude (coords locationData))
                          (longitude (coords locationData))
                          0.01 0.01))
  ) catch (λ error,
    setState (setErrorMsg (Some "Unable to get location. Please ensure GPS is enabled."));;
    emit (ConsoleError "Location error:")
  ) finally (
    setState (setIsLoading false)
  ).

(** Source lines 68-97.  The source starts [getCurrentLocation()]
    without awaiting it.  That function has its own [try]/[catch] and
    issues its call to the platform at once; the only cell that both it
    and the remainder of this function write afterwards is [isLoading],
    which both set to [false].  It is therefore run in place: the final
    state and the order of the platform calls are those of the source. *)
Definition checkLocationPermission (env : Env) : Handler () :=
  setState (setIsLoading true);;
  try (
    status ← await GetForegroundPermissionsAsync (getForegroundPermissions env);
    setState (setPermissionStatus (Some status));;
    if negb (is_granted status) then
      newStatus ← await RequestForegroundPermissionsAsync
                        (requestForegroundPermissions env);
      setState (setPermissionStatus (Some newStatus));;
      if negb (is_granted newStatus) then
        setState (setErrorMsg (Some "Permission to access location was denied"));;
        emit (AlertAlert "Location Permission Required"
                "This app needs location access to show your current position. Please enable location in your device settings.")
      else
        getCurrentLocation env
    else
      getCurrentLocation env
  ) catch (λ error,
    setState (setErrorMsg (Some "Error checking location permission"));;
    emit (ConsoleError "Location permission error:")
  ) finally (
    setState (setIsLoading false)
  ).

(** Source lines 125-130: the branch of [watchLocation] that stops
    tracking. *)
Definition stopTracking : Handler () :=
  s ← getState;
  match locationSubscription s with
  | Some subscription =>
      subscription_remove subscription;;
      setState (setLocationSubscription None)
  | None => mret tt
  end;;
  setState (setIsTracking false).

(** Source lines 123-162. *)
Definition watchLocation (env : Env) : Handler () :=
  s ← getState;
  if isTracking s then
    stopTracking
  else
    setState (setIsLoading true);;
    try (
      subscription ← watchPositionAsync env;
      setState (setLocationSubscription (Some subscription));;
      setState (setIsTracking true)
    ) catch (λ error,
      setState (setErrorMsg (Some "Unable to watch location"));;
      emit (ConsoleError "Watch location error:")
    ) finally (
      setState (setIsLoading false)
    ).

(** The callback given to [watchPositionAsync] (source lines 142-151). *)
Definition onLocationUpdate (newLocation : LocationObject) : Handler () :=
  setState (setLocation (Some newLocation));;
  setState (setMapRegion
              (MkRegion (latitude (coords newLocation))
                        (longitude (coords newLocation))
                        0.01 0.01));;
  emit (ConsoleLog "Updated location:").

Definition requestPermissionAgain (env : Env) : Handler () :=
  checkLocationPermission env.

(** The cleanup function returned by the effect of source lines 59-66,
    closed over the subscription of the render that installed it. *)
Definition cleanup (sub : option nat) : Handler () :=
  match sub with
  | Some subscription => subscription_remove subscription
  | None => mret tt
  end.

(** React runs the cleanup of the previous render when the dependency
    [locationSubscription] has changed ... *)
Definition commit (prev : State) : Handler () :=
  s ← getState;
  if decide (locationSubscription prev = locationSubscription s)
  then mret tt
  else cleanup (locationSubscription prev).

(** ... and when the component unmounts. *)
Definition unmount : Handler () :=
  s ← getState;
  cleanup (locationSubscription s).

(** *** Rendering: which handler the screen offers in which state *)

Inductive Screen : Type := CheckingScreen | PermissionScreen | MainScreen.

(** Source lines 183-224. *)
Definition render (s : State) : Screen :=
  match permissionStatus s with
  | None => CheckingScreen
  | Some Granted => MainScreen
  | Some _ => PermissionScreen
  end.

Inductive UIEvent : Type :=
  | Mount                                  (* useEffect(..., []) *)
  | PressGrantPermission                   (* requestPermissionAgain *)
  | PressRetry                             (* getCurrentLocation *)
  | PressGetCurrent                        (* getCurrentLocation *)
  | PressTracking                          (* watchLocation *)
  | LocationUpdate (l : LocationObject).   (* the watch callback *)

Definition handler (ev : UIEvent) (env : Env) : Handler () :=
  match ev with
  | Mount => checkLocationPermission env
  | PressGrantPermission => requestPermissionAgain env
  | PressRetry => getCurrentLocation env
  | PressGetCurrent => getCurrentLocation env
  | PressTracking => watchLocation env
  | LocationUpdate l => onLocationUpdate l
  end.

Definition is_screen (a b : Screen) : bool :=
  match a, b with
  | CheckingScreen, CheckingScreen
  | PermissionScreen, PermissionScreen
  | MainScreen, MainScreen => true
  | _, _ => false
  end.

Definition offered (s : State) (ev : UIEvent) : bool :=
  match ev with
  | Mount => true
  | LocationUpdate _ => true
  | PressGrantPermission => is_screen (render s) PermissionScreen && negb (isLoading s)
  | PressRetry => is_screen (render s) MainScreen && truthy (errorMsg s)
  | PressGetCurrent => is_screen (render s) MainScreen
  | PressTracking => is_screen (render s) MainScreen
  end.

(** One turn of the screen: the handler, then React's commit. *)
Definition step (ev : UIEvent) (env : Env) (w : W) : W :=
  exec (handler ev env;; commit (ui w)) w.

Definition initialWorld : W := MkWorld initialState (MkOS ∅ 0) [].

(** The worlds the screen reaches when every handler runs to its end
    before the next event is delivered.  The interleavings in which an
    event arrives while [watchPositionAsync] is pending are those of
    [LocationAsync] below. *)
Inductive reachable : W → Prop :=
  | reachable_initial : reachable initialWorld
  | reachable_step w ev env :
      reachable w → offered (ui w) ev = true → reachable (step ev env w).

(** *** The subscription the component holds and the ones that are live *)

Definition held (s : State) : gset nat :=
  match locationSubscription s with
  | Some subscription => {[subscription]}
  | None => ∅
  end.

(** The registered subscriptions are exactly the one the component
    holds, and [isTracking] says whether it holds one. *)
Record consistent (w : W) : Prop := MkConsistent {
  live_is_held : live (platform w) = held (ui w);
  tracking_is_held :
    isTracking (ui w) = bool_decide (is_Some (locationSubscription (ui w)))
}.

(** The location session of the specification: watching while a
    subscription is registered with the platform. *)
Inductive Session : Type := Closed | Watching.

Definition session (w : W) : Session :=
  if decide (live (platform w) = ∅) then Closed else Watching.

(** *** Acquisitions and the permission they are made under *)

(** The calls that acquire the location resource. *)
Definition acquires (e : Event) : bool :=
  match e with
  | GetCurrentPositionAsync | WatchPositionAsync => true
  | _ => false
  end.

(** A logged call is gated when, if it acquires the resource, the
    permission status recorded at that moment was granted. *)
Definition gated (entry : State * Event) : Prop :=
  acquires entry.2 = true → permissionStatus entry.1 = Some Granted.

Definition Gated (w : W) : Prop := Forall gated (log w).

Definition count_event (e : Event → bool) (l : list Event) : nat :=
  length (List.filter e l).

Definition is_request (e : Event) : bool :=
  match e with RequestForegroundPermissionsAsync => true | _ => false end.

(** The platform answers the permission calls of a second handler as it
    answered those of the first: the permission state of the operating
    system has not changed. *)
Definition same_permission_answers (env1 env2 : Env) : Prop :=
  getForegroundPermissions env2 = getForegroundPermissions env1 ∧
  requestForegroundPermissions env2 = requestForegroundPermissions env1.

(** *** Sample answers of the platform, and the worlds they lead to *)

Definition sampleFix : LocationObject :=
  MkLocation (MkCoords 37.78825 (-122.4324) None None None None) 0.

Definition envGranted : Env :=
  MkEnv (Normal Granted) (Normal Granted) (Normal sampleFix) (Normal ()).

Definition envDenied : Env :=
  MkEnv (Normal Denied) (Normal Denied) (Normal sampleFix) (Normal ()).

Definition mountedWorld : W := step Mount envGranted initialWorld.

Definition trackingWorld : W := step PressTracking envGranted mountedWorld.

End LocationScreen.

(** ** The camera screen

    [CameraScreen], the component of [src/my-app/app/(tabs)/camera.jsx]. *)

Module CameraScreen.

(** What [useCameraPermissions] hands to the component. *)
Record PermissionResponse : Type := MkResponse {
  status : PermissionStatus;
  granted : bool
}.

(** A photo as [takePictureAsync] or the image picker returns it. *)
Record ImageAsset : Type := MkImage {
  uri : string;
  width : nat;
  height : nat
}.

Record PickerResult : Type := MkPicked {
  canceled : bool;
  assets : list ImageAsset
}.

Inductive CameraType : Type := back | front.

(** [testMode] is [false], ['denied'] or ['granted']. *)
Inductive TestMode : Type := testOff | testDenied | testGranted.

Record State : Type := MkState {
  permission : option PermissionResponse;   (* null until the hook has loaded *)
  cameraType : CameraType;
  capturedImage : option ImageAsset;
  isCameraReady : bool;
  isLoading : bool;
  galleryPermission : option bool;
  testMode : TestMode;
  cameraRef_current : bool                  (* a CameraView is attached to the ref;
                                               each render sets it, see [CameraCommit] *)
}.

Definition initialState : State :=
  MkState None back None false false None testOff false.

Definition setPermission v (s : State) : State :=
  MkState v (cameraType s) (capturedImage s) (isCameraReady s) (isLoading s)
          (galleryPermission s) (testMode s) (cameraRef_current s).
Definition setCameraType v (s : State) : State :=
  MkState (permission s) v (capturedImage s) (isCameraReady s) (isLoading s)
          (galleryPermission s) (testMode s) (cameraRef_current s).
Definition setCapturedImage v (s : State) : State :=
  MkState (permission s) (cameraType s) v (isCameraReady s) (isLoading s)
          (galleryPermission s) (testMode s) (cameraRef_current s).
Definition setIsCameraReady v (s : State) : State :=
  MkState (permission s) (cameraType s) (capturedImage s) v (isLoading s)
          (galleryPermission s) (testMode s) (cameraRef_current s).
Definition setIsLoading v (s : State) : State :=
  MkState (permission s) (cameraType s) (capturedImage s) (isCameraReady s) v
          (galleryPermission s) (testMode s) (cameraRef_current s).
Definition setGalleryPermission v (s : State) : State :=
  MkState (permission s) (cameraType s) (capturedImage s) (isCameraReady s) (isLoading s)
          v (testMode s) (cameraRef_current s).
Definition setTestMode v (s : State) : State :=
  MkState (permission s) (cameraType s) (capturedImage s) (isCameraReady s) (isLoading s)
          (galleryPermission s) v (cameraRef_current s).

Inductive Event : Type :=
  | MediaLibrary_getPermissionsAsync
  | MediaLibrary_requestPermissionsAsync
  | RequestPermission                            (* of useCameraPermissions *)
  | TakePictureAsync
  | LaunchImageLibraryAsync
  | MediaLibrary_createAssetAsync (localUri : string)
  | MediaLibrary_createAlbumAsync (albumName : string)
  | AlertAlert (title message : string)
  | ConsoleError (label : string)
  | ConsoleLog (label : string).

Record Env : Type := MkEnv {
  getPermissions : Completion PermissionStatus;
  requestPermissions : Completion PermissionStatus;
  requestPermission : Completion PermissionResponse;
  takePictureAsync : Completion ImageAsset;
  launchImageLibrary : Completion PickerResult;
  createAsset : Completion ();
  createAlbum : Completion ()
}.

Abbreviation Handler A := (Js State () Event A).
Abbreviation W := (World State () Event).

(** [permission?.granted] *)
Definition permission_granted (s : State) : bool :=
  match permission s with
  | Some r => granted r
  | None => false
  end.

(** Truthiness of [galleryPermission] (null, true or false). *)
Definition gallery_granted (s : State) : bool :=
  match galleryPermission s with
  | Some b => b
  | None => false
  end.

(** Source lines 31-39. *)
Definition checkGalleryPermission (env : Env) : Handler () :=
  try_catch (
    status ← await MediaLibrary_getPermissionsAsync (getPermissions env);
    setState (setGalleryPermission (Some (is_granted status)))
  ) (λ error,
    emit (ConsoleLog "Gallery permission check failed:");;
    setState (setGalleryPermission (Some false))).

(** Source lines 41-51. *)
Definition requestGalleryPermission (env : Env) : Handler bool :=
  try_catch (
    status ← await MediaLibrary_requestPermissionsAsync (requestPermissions env);
    setState (setGalleryPermission (Some (is_granted status)));;
    mret (is_granted status)
  ) (λ error,
    emit (ConsoleLog "Gallery permission request failed:");;
    setState (setGalleryPermission (Some false));;
    mret false).

(** Source lines 53-73.  [requestPermission] is the second component of
    [useCameraPermissions()]: it asks the platform and the hook stores
    the answer in [permission]. *)
Definition handlePermissionRequest (env : Env) : Handler () :=
  setState (setIsLoading true);;
  try (
    result ← await RequestPermission (requestPermission env);
    setState (setPermission (Some result));;
    if granted result then
      emit (AlertAlert "Success" "Camera permission granted!")
    else
      emit (AlertAlert "Permission Required"
              "Camera access is required to take photos. Please enable camera permission in your device settings.")
  ) catch (λ error,
    emit (ConsoleError "Permission request error:");;
    emit (AlertAlert "Error" "Failed to request camera permission")
  ) finally (
    setState (setIsLoading false)
  ).

(** Source lines 75-92. *)
Definition takePicture (env : Env) : Handler () :=
  s ← getState;
  if negb (cameraRef_current s) || negb (permission_granted s) then mret tt
  else
    setState (setIsLoading true);;
    try (
      photo ← await TakePictureAsync (takePictureAsync env);
      setState (setCapturedImage (Some photo));;
      emit (ConsoleLog "Photo taken:")
    ) catch (λ error,
      emit (ConsoleError "Camera error:");;
      emit (AlertAlert "Error" "Failed to take picture")
    ) finally (
      setState (setIsLoading false)
    ).

(** Source lines 94-114.  [result.assets[0]] of an empty list is
    [undefined], which the cell then holds in place of an image. *)
Definition pickImageFromGallery (env : Env) : Handler () :=
  setState (setIsLoading true);;
  try (
    result ← await LaunchImageLibraryAsync (launchImageLibrary env);
    if negb (canceled result) then
      setState (setCapturedImage (head (assets result)));;
      emit (ConsoleLog "Image picked:")
    else mret tt
  ) catch (λ error,
    emit (ConsoleError "Image picker error:");;
    emit (AlertAlert "Error" "Failed to pick image from gallery")
  ) finally (
    setState (setIsLoading false)
  ).

(** Source lines 116-143.  The two early [return]s are the branches
    that end without reaching the [try]. *)
Definition saveToGallery (env : Env) : Handler () :=
  s ← getState;
  match capturedImage s with
  | None => mret tt
  | Some image =>
      proceed ←
        (if negb (gallery_granted s) then
           granted ← requestGalleryPermission env;
           if negb granted then
             emit (AlertAlert "Permission Required"
                     "Gallery access is required to save photos. Please enable storage permission in settings.");;
             mret false
           else mret true
         else mret true);
      if proceed : bool then
        setState (setIsLoading true);;
        try (
          asset ← await (MediaLibrary_createAssetAsync (uri image)) (createAsset env);
          _ ← await (MediaLibrary_createAlbumAsync "MyAppCamera") (createAlbum env);
          emit (AlertAlert "Success" "Image saved to gallery!");;
          emit (ConsoleLog "Image saved to gallery")
        ) catch (λ error,
          emit (ConsoleError "Save error:");;
          emit (AlertAlert "Error" "Failed to save image to gallery")
        ) finally (
          setState (setIsLoading false)
        )
      else mret tt
  end.

(** Source lines 145-147. *)
Definition toggleCameraType : Handler () :=
  s ← getState;
  setState (setCameraType (match cameraType s with back => front | _ => back end)).

(** Source lines 149-151. *)
Definition resetCamera : Handler () :=
  setState (setCapturedImage None).

(** [onCameraReady={() => setIsCameraReady(true)}], source line 260. *)
Definition onCameraReady : Handler () :=
  setState (setIsCameraReady true).

(** *** Rendering (source lines 153-288) *)

Inductive Screen : Type :=
  | CheckingScreen         (* !permission *)
  | TestDeniedScreen       (* testMode === 'denied' *)
  | PermissionScreen       (* testMode === 'granted' || !permission.granted *)
  | PreviewScreen          (* capturedImage *)
  | CameraViewScreen.

Definition render (s : State) : Screen :=
  match permission s with
  | None => CheckingScreen
  | Some r =>
      match testMode s with
      | testDenied => TestDeniedScreen
      | testGranted => PermissionScreen
      | testOff =>
          if negb (granted r) then PermissionScreen
          else match capturedImage s with
               | Some _ => PreviewScreen
               | None => CameraViewScreen
               end
      end
  end.

Inductive UIEvent : Type :=
  | Mount                       (* useEffect(..., []): checkGalleryPermission *)
  | PressSimulateDenied         (* setTestMode('denied') *)
  | PressSimulateGranted        (* setTestMode('granted') *)
  | PressExitTestMode           (* setTestMode(false) *)
  | PressGrantPermission        (* handlePermissionRequest *)
  | PressRetake                 (* resetCamera *)
  | PressSave                   (* saveToGallery *)
  | PressPick                   (* pickImageFromGallery *)
  | PressCapture                (* takePicture *)
  | PressToggle                 (* toggleCameraType *)
  | CameraReady                 (* onCameraReady *)
  | PermissionLoaded (r : PermissionResponse).
                                (* useCameraPermissions delivers the status *)

Definition handler (ev : UIEvent) (env : Env) : Handler () :=
  match ev with
  | Mount => checkGalleryPermission env
  | PressSimulateDenied => setState (setTestMode testDenied)
  | PressSimulateGranted => setState (setTestMode testGranted)
  | PressExitTestMode => setState (setTestMode testOff)
  | PressGrantPermission => handlePermissionRequest env
  | PressRetake => resetCamera
  | PressSave => saveToGallery env
  | PressPick => pickImageFromGallery env
  | PressCapture => takePicture env
  | PressToggle => toggleCameraType
  | CameraReady => onCameraReady
  | PermissionLoaded r => setState (setPermission (Some r))
  end.

Definition offered (s : State) (ev : UIEvent) : bool :=
  match ev, render s with
  | Mount, _ => true
  | PermissionLoaded _, _ => true
  | PressSimulateDenied, CheckingScreen => true
  | PressSimulateGranted, (CheckingScreen | TestDeniedScreen) => true
  | PressExitTestMode, TestDeniedScreen => true
  | PressGrantPermission, PermissionScreen => negb (isLoading s)
  | (PressRetake | PressSave), PreviewScreen => true
  | (PressPick | PressToggle | CameraReady), CameraViewScreen => true
  | PressCapture, CameraViewScreen => isCameraReady s
  | _, _ => false
  end.

(** *** The session the flags stand for

    The source keeps no session object; the camera session of the
    specification is read off the cells: no session while permission is
    missing or no camera view is attached, a capture in flight while
    [isLoading], and otherwise ready or still opening according to
    [isCameraReady]. *)
Inductive Phase : Type := Closed | Opening | Ready | Capturing.

Definition phase (s : State) : Phase :=
  if negb (permission_granted s) || negb (cameraRef_current s) then Closed
  else if isLoading s then Capturing
  else if isCameraReady s then Ready
  else Opening.

(** *** Events by the collaborator they reach *)

(** Calls to the media store. *)
Definition contacts_media_store (e : Event) : bool :=
  match e with
  | MediaLibrary_createAssetAsync _ | MediaLibrary_createAlbumAsync _ => true
  | _ => false
  end.

(** Calls that ask the platform to prompt for a permission. *)
Definition is_request (e : Event) : bool :=
  match e with
  | MediaLibrary_requestPermissionsAsync | RequestPermission => true
  | _ => false
  end.

(** Calls that read a permission status without prompting. *)
Definition is_status_read (e : Event) : bool :=
  match e with
  | MediaLibrary_getPermissionsAsync => true
  | _ => false
  end.

Definition count_event (e : Event → bool) (l : list Event) : nat :=
  length (List.filter e l).

Definition is_camera_view (v : Screen) : bool :=
  match v with CameraViewScreen => true | _ => false end.

(** The lens [toggleCameraType] selects. *)
Definition opposite (t : CameraType) : CameraType :=
  match t with back => front | _ => back end.

(** The platform answers the permission calls of a second handler as it
    answered those of the first. *)
Definition same_permission_answers (env1 env2 : Env) : Prop :=
  getPermissions env2 = getPermissions env1 ∧
  requestPermissions env2 = requestPermissions env1 ∧
  requestPermission env2 = requestPermission env1.

(** *** Sample answers of the platform, and sample worlds *)

Definition samplePhoto : ImageAsset := MkImage "file:///cache/Camera/photo.jpg" 3024 4032.

Definition envGranted : Env :=
  MkEnv (Normal Granted) (Normal Granted) (Normal (MkResponse Granted true))
        (Normal samplePhoto) (Normal (MkPicked true [])) (Normal ()) (Normal ()).

Definition envDenied : Env :=
  MkEnv (Normal Denied) (Normal Denied) (Normal (MkResponse Denied false))
        (Normal samplePhoto) (Normal (MkPicked true [])) (Normal ()) (Normal ()).

(** "Simulate Granted" was pressed while the permission was loading, and
    the permission then loaded as granted. *)
Definition testGrantedWorld : W :=
  exec (handler (PermissionLoaded (MkResponse Granted true)) envGranted)
       (exec (handler PressSimulateGranted envGranted)
             (MkWorld initialState () [])).

(** The camera view is shown and has not reported ready yet. *)
Definition openingWorld : W :=
  MkWorld (MkState (Some (MkResponse Granted true)) back None false false
                   (Some false) testOff true) () [].

(** The camera view is shown and ready. *)
Definition readyWorld : W := exec onCameraReady openingWorld.

(** A photo has been taken and the gallery permission is cached as granted. *)
Definition previewWorld : W :=
  MkWorld (MkState (Some (MkResponse Granted true)) back (Some samplePhoto) true false
                   (Some true) testOff false) () [].

(** A photo has been taken and the gallery permission is not granted. *)
Definition previewNoGalleryWorld : W :=
  MkWorld (MkState (Some (MkResponse Granted true)) back (Some samplePhoto) true false
                   (Some false) testOff false) () [].

End CameraScreen.

(** ** The login / register form

    [practice], the component of [src/my-app/app/(tabs)/practice.jsx]. *)

Module Practice.

Definition API_BASE_URL : string := "http://172.17.24.213:5000/api".

Section Form.
(** The user object of the backend is opaque to the form: it is
    stored, and serialised for the secure store.  [User] ranges over
    every value a body can carry under [user], [null] and the other
    falsy values included; an absent [user] is [None]. *)
Context {User : Type}.
Context (JSON_stringify : User → string).
Context (JSON_parse : string → Completion User).

(** The parsed body of a response: [data.message] and [data.user],
    either of which may be absent. *)
Record Data : Type := MkData {
  message : option string;
  user : option User
}.

Record Response : Type := MkResponse {
  ok : bool;
  json : Completion Data
}.

Record State : Type := MkState {
  name : string;
  email : string;
  password : string;
  isLogin : bool;
  loading : bool;
  currentUser : option User
}.

Definition initialState : State := MkState "" "" "" true false None.

Definition setName v (s : State) : State :=
  MkState v (email s) (password s) (isLogin s) (loading s) (currentUser s).
Definition setEmail v (s : State) : State :=
  MkState (name s) v (password s) (isLogin s) (loading s) (currentUser s).
Definition setPassword v (s : State) : State :=
  MkState (name s) (email s) v (isLogin s) (loading s) (currentUser s).
Definition setIsLogin v (s : State) : State :=
  MkState (name s) (email s) (password s) v (loading s) (currentUser s).
Definition setLoading v (s : State) : State :=
  MkState (name s) (email s) (password s) (isLogin s) v (currentUser s).
Definition setCurrentUser v (s : State) : State :=
  MkState (name s) (email s) (password s) (isLogin s) (loading s) v.

Inductive Event : Type :=
  | Fetch (url : string) (body : list (string * string))   (* POST, JSON body *)
  | ResponseJson
  | SecureStore_getItemAsync (key : string)
  | SecureStore_setItemAsync (key : string) (value : option string)
  | SecureStore_deleteItemAsync (key : string)
  | AlertAlert (title : string) (text : option string)
  | ConsoleError (label : string)
  | ConsoleLog (label : string).

(** The platform may fail a secure-store call; what a read returns
    when it succeeds is what the store holds. *)
Record Env : Type := MkEnv {
  fetch : Completion Response;
  getItem : Completion ();
  setItem : Completion ();
  deleteItem : Completion ()
}.

(** The secure store of the device. *)
Abbreviation SecureStore := (gmap string string).
Abbreviation Handler A := (Js State SecureStore Event A).
Abbreviation W := (World State SecureStore Event).

(** Truthiness of a string cell. *)
Definition filled (v : string) : bool := negb (String.eqb v "").

(** [a || b] on a string that may be absent. *)
Definition or_else (a : option string) (b : string) : string :=
  match a with
  | Some v => if filled v then v else b
  | None => b
  end.

(** Source lines 21-32. *)
Definition loadUserData (env : Env) : Handler () :=
  try_catch (
    _ ← await (SecureStore_getItemAsync "userData") (getItem env);
    store ← getPlatform;
    if truthy (store !! "userData") then
      user ← (match JSON_parse (default "" (store !! "userData")) with
              | Normal u => mret u
              | Thrown e => throw e
              end);
      setState (setCurrentUser (Some user));;
      emit (ConsoleLog "User data loaded from storage:")
    else mret tt
  ) (λ error, emit (ConsoleError "Error loading user data:")).

(** Source lines 34-41.  [JSON.stringify(undefined)] is [undefined],
    a value the secure store rejects by throwing. *)
Definition saveUserData (env : Env) (user : option User) : Handler () :=
  try_catch (
    match user with
    | Some u =>
        _ ← await (SecureStore_setItemAsync "userData" (Some (JSON_stringify u)))
                  (setItem env);
        setPlatform (λ store, <["userData" := JSON_stringify u]> store)
    | None =>
        await (SecureStore_setItemAsync "userData" None)
              (Thrown "Invalid value provided to SecureStore")
    end;;
    emit (ConsoleLog "User data saved to storage:")
  ) (λ error, emit (ConsoleError "Error saving user data:")).

(** Source lines 43-50. *)
Definition clearUserData (env : Env) : Handler () :=
  try_catch (
    _ ← await (SecureStore_deleteItemAsync "userData") (deleteItem env);
    setPlatform (λ store, delete "userData" store);;
    emit (ConsoleLog "User data cleared from storage")
  ) (λ error, emit (ConsoleError "Error clearing user data:")).

(** Source lines 52-98. *)
Definition handleSubmit (env : Env) : Handler () :=
  s ← getState;
  if negb (filled (email s)) || negb (filled (password s))
     || (negb (isLogin s) && negb (filled (name s)))
  then emit (AlertAlert "Error" (Some "Please fill in all fields"))
  else
    setState (setLoading true);;
    try (
      let endpoint := if isLogin s then "/login" else "/register" in
      let body := if isLogin s
                  then [("email", email s); ("password", password s)]
                  else [("name", name s); ("email", email s); ("password", password s)] in
      response ← await (Fetch (API_BASE_URL ++ endpoint) body) (fetch env);
      data ← await ResponseJson (json response);
      if ok response then
        emit (AlertAlert "Success" (message data));;
        if isLogin s then
          emit (ConsoleLog "Logged in user:");;
          setState (setCurrentUser (user data));;
          (* Save user data to local storage *)
          saveUserData env (user data);;
          (* Clear form fields *)
          setState (setEmail "");;
          setState (setPassword "")
        else
          emit (ConsoleLog "Registered user:");;
          (* Switch to login mode after successful registration *)
          setState (setIsLogin true);;
          setState (setPassword "")
      else
        emit (AlertAlert "Error" (Some (or_else (message data) "Something went wrong")))
    ) catch (λ error,
      emit (ConsoleError "API Error:");;
      emit (AlertAlert "Error"
              (Some "Network error. Please make sure the backend server is running."))
    ) finally (
      setState (setLoading false)
    ).

(** Source lines 100-103. *)
Definition toggleMode : Handler () :=
  s ← getState;
  setState (setIsLogin (negb (isLogin s)));;
  setState (setPassword "").

(** Source lines 105-109. *)
Definition handleLogout (env : Env) : Handler () :=
  clearUserData env;;
  setState (setCurrentUser None);;
  emit (AlertAlert "Logged Out" (Some "You have been logged out successfully")).

(** The alerts among the events, oldest first. *)
Definition alerts (l : list Event) : list (string * option string) :=
  omap (λ e, match e with AlertAlert t m => Some (t, m) | _ => None end) l.

Definition is_store_write (e : Event) : bool :=
  match e with
  | SecureStore_setItemAsync _ _ | SecureStore_deleteItemAsync _ => true
  | _ => false
  end.

(** The writes to the secure store among the events. *)
Definition store_writes (l : list Event) : list Event :=
  List.filter is_store_write l.
End Form.

(** *** A sample backend user, sample answers and sample worlds *)

Definition sampleStringify (u : string) : string := u.

Definition filledLogin : World (State (User := string)) (gmap string string) Event :=
  MkWorld (MkState "" "ada@example.org" "wrong-password" true false None) ∅ [].

Definition filledRegister : World (State (User := string)) (gmap string string) Event :=
  MkWorld (MkState "Ada" "ada@example.org" "s3cret" false false None) ∅ [].

Definition envRejected : Env (User := string) :=
  MkEnv (Normal (MkResponse false (Normal (MkData (Some "Invalid credentials") None))))
        (Normal ()) (Normal ()) (Normal ()).

Definition envRegistered : Env (User := string) :=
  MkEnv (Normal (MkResponse true
                   (Normal (MkData (Some "User registered successfully") (Some "ada")))))
        (Normal ()) (Normal ()) (Normal ()).

End Practice.

(** ** What the location screen displays

    The formatting helpers of [LocationScreen] (source lines 164-177) and
    the conditions under which its panels are rendered (lines 248-256 and
    279).  Numbers are JavaScript doubles; their product and their
    printing are left to the platform, as parameters. *)

Module LocationDisplay.
Import LocationScreen.

Section Formatting.
Context (fmul : Q → Q → Q).                 (* x * y on doubles *)
Context (toFixed : nat → Q → string).       (* x.toFixed(n) *)
Context (toLocaleString : Z → string).      (* new Date(t).toLocaleString() *)

(** Truthiness of a number that may be absent: [0] is falsy. *)
Definition truthy_number (v : option Q) : bool :=
  match v with
  | Some x => negb (Qeq_bool x 0)
  | None => false
  end.

(** Source lines 164-167. *)
Definition formatCoordinates (coords : option Coords) : string :=
  match coords with
  | None => "N/A"
  | Some c => toFixed 6 (latitude c) ++ ", " ++ toFixed 6 (longitude c)
  end.

(** Source lines 169-172. *)
Definition formatTimestamp (timestamp : option Z) : string :=
  match timestamp with
  | None => "N/A"
  | Some t => if (t =? 0)%Z then "N/A" else toLocaleString t
  end.

(** Source lines 174-177: [location?.coords?.speed]. *)
Definition calculateSpeed (location : option LocationObject) : string :=
  match location with
  | None => "N/A"
  | Some l =>
      if negb (truthy_number (speed (coords l))) then "N/A"
      else toFixed 2 (fmul (default 0%Q (speed (coords l))) 3.6) ++ " km/h"
  end.
End Formatting.

(** [{errorMsg && (...)}], source line 248: the error banner with its
    Retry button. *)
Definition errorBannerShown (s : State) : bool := truthy (errorMsg s).

(** [{location && !errorMsg && (...)}], source line 279. *)
Definition infoPanelShown (s : State) : bool :=
  match location s with
  | Some _ => negb (truthy (errorMsg s))
  | None => false
  end.

(** The calls that reach the platform (alerts and console lines do
    not). *)
Definition is_platform_call (e : Event) : bool :=
  match e with
  | AlertAlert _ _ | ConsoleError _ | ConsoleLog _ => false
  | _ => true
  end.

(** A fix taken at rest, at the origin of the epoch. *)
Definition restingFix : LocationObject :=
  MkLocation (MkCoords 37.78825 (-122.4324) (Some 12.5%Q) (Some 5%Q) (Some 0%Q) (Some 0%Q)) 0.

(** The platform refuses the watch. *)
Definition envWatchFails : Env :=
  MkEnv (Normal Granted) (Normal Granted) (Normal sampleFix) (Thrown "Location services are disabled").

(** The platform has no fix to give. *)
Definition envNoFix : Env :=
  MkEnv (Normal Granted) (Normal Granted) (Thrown "Location request timed out") (Normal ()).

(** The permission is granted by the prompt. *)
Definition envGrantedOnRequest : Env :=
  MkEnv (Normal Undetermined) (Normal Granted) (Normal sampleFix) (Normal ()).

(** The permission subsystem itself fails. *)
Definition envPermissionFails : Env :=
  MkEnv (Thrown "Permissions module unavailable") (Normal Granted) (Normal sampleFix) (Normal ()).

End LocationDisplay.

(** ** The colour scheme hook

    [useColorScheme] ([src/unnamed/part_001], lines 4-20). *)

Module Theme.

Inductive ColorSchemeName : Type := light | dark.

(** [useState('light')] *)
Definition initialColorScheme : ColorSchemeName := light.

(** The effect of lines 8-12, run when the native scheme (which may be
    null) is delivered. *)
Definition colorSchemeEffect (nativeColorScheme : option ColorSchemeName)
    (colorScheme : ColorSchemeName) : ColorSchemeName :=
  match nativeColorScheme with
  | Some scheme => scheme
  | None => colorScheme
  end.

Definition isDark (colorScheme : ColorSchemeName) : bool :=
  match colorScheme with dark => true | light => false end.

Definition isLight (colorScheme : ColorSchemeName) : bool :=
  match colorScheme with light => true | dark => false end.

(** The scheme the hook holds after the native scheme has been delivered
    (and the effect run) once for every element of [natives], oldest
    first. *)
Definition colorSchemeAfter (natives : list (option ColorSchemeName)) : ColorSchemeName :=
  foldl (λ colorScheme native, colorSchemeEffect native colorScheme)
        initialColorScheme natives.

End Theme.

(** ** What the login / register form displays (source lines 111-183) *)

Module PracticeView.
Import Practice.

(** [{!currentUser && (...)}]: the form, with its submit and toggle
    buttons, is rendered while [currentUser] is falsy: while it is null
    or undefined ([None]) or holds a falsy value of the backend, such as
    [null].  Which values of the backend are truthy is [user_truthy]. *)
Definition formShown {User : Type} (user_truthy : User → bool)
    (s : State (User := User)) : bool :=
  match currentUser s with
  | Some u => negb (user_truthy u)
  | None => true
  end.

(** The form passes the check of [handleSubmit] (source line 53): the
    negation of [!email || !password || (!isLogin && !name)]. *)
Definition formComplete {User : Type} (s : State (User := User)) : bool :=
  filled (email s) && filled (password s) && (isLogin s || filled (name s)).

(** The logout button is in the header of a logged-in user. *)
Definition logoutShown {User : Type} (user_truthy : User → bool)
    (s : State (User := User)) : bool :=
  negb (formShown user_truthy s).

(** The submit button is [disabled={loading}]. *)
Definition submitOffered {User : Type} (user_truthy : User → bool)
    (s : State (User := User)) : bool :=
  formShown user_truthy s && negb (loading s).

(** With the JSON text of a user standing for the user, every text but
    "null" is a truthy user. *)
Definition sampleTruthy (u : string) : bool := negb (String.eqb u "null").

(** The backend accepts the login with a body whose user is [null]. *)
Definition envNullUser : Env (User := string) :=
  MkEnv (Normal (MkResponse true (Normal (MkData (Some "Login successful") (Some "null")))))
        (Normal ()) (Normal ()) (Normal ()).

(** A parser that inverts [sampleStringify]. *)
Definition sampleParse (text : string) : Completion string := Normal text.

(** A world with a user logged in and persisted. *)
Definition loggedInWorld : World (State (User := string)) (gmap string string) Event :=
  MkWorld (MkState "" "" "" true false (Some "ada")) {["userData" := "ada"]} [].

Definition envLoggedIn : Env (User := string) :=
  MkEnv (Normal (MkResponse true (Normal (MkData (Some "Login successful") (Some "ada")))))
        (Normal ()) (Normal ()) (Normal ()).

Definition envOffline : Env (User := string) :=
  MkEnv (Thrown "Network request failed") (Normal ()) (Normal ()) (Normal ()).

Definition envStoreFails : Env (User := string) :=
  MkEnv (Normal (MkResponse true (Normal (MkData (Some "Login successful") (Some "ada")))))
        (Thrown "Keychain unavailable") (Thrown "Keychain unavailable")
        (Thrown "Keychain unavailable").

End PracticeView.

(** ** The location screen between renders

    [watchLocation] is an [async] function: a press of the tracking
    button runs it up to its [await], and the rest runs when the promise
    of [watchPositionAsync] settles.  The button is not disabled
    meanwhile (source lines 333-341), so presses, settlements, renders
    and the unmount can come in any order.  An [Instance] keeps, beside
    the latest cells, the cells of the last render, which are what the
    closure of a handler and the installed effect cleanup hold. *)

Module LocationAsync.
Import LocationScreen.

Record Instance : Type := MkInstance {
  world : W;                 (* latest cells, platform, log *)
  rendered : State;          (* the cells as of the last render *)
  pendingWatches : nat;      (* watchPositionAsync calls not settled yet *)
  mounted : bool
}.

Definition mountInstance (w : W) : Instance := MkInstance w (ui w) 0 true.

(** Source lines 124-136: [watchLocation] up to its [await], on the
    cells its closure holds.  It answers whether a watch was asked for. *)
Definition watchLocation_begin (closure : State) : Handler bool :=
  if isTracking closure then
    (* Stop tracking *)
    match locationSubscription closure with
    | Some subscription =>
        subscription_remove subscription;;
        setState (setLocationSubscription None)
    | None => mret tt
    end;;
    setState (setIsTracking false);;
    mret false
  else
    setState (setIsLoading true);;
    emit WatchPositionAsync;;
    mret true.

(** Source lines 136-161: the rest of [watchLocation], run when the
    promise settles: on success the platform has registered a new
    subscription. *)
Definition watchLocation_settle (outcome : Completion ()) : Handler () :=
  try (
    subscription ←
      match outcome with
      | Normal _ =>
          os ← getPlatform;
          setPlatform (λ o, MkOS ({[next_id o]} ∪ live o) (S (next_id o)));;
          mret (next_id os)
      | Thrown e => throw e
      end;
    setState (setLocationSubscription (Some subscription));;
    setState (setIsTracking true)
  ) catch (λ error,
    setState (setErrorMsg (Some "Unable to watch location"));;
    emit (ConsoleError "Watch location error:")
  ) finally (
    setState (setIsLoading false)
  ).

Inductive AsyncEvent : Type :=
  | PressTrackingButton
  | WatchSettles (outcome : Completion ())
  | Render
  | Unmount.

(** One event in the life of the instance.  A press runs the handler of
    the last render; a settlement runs the rest of the oldest pending
    call, whose cell writes are lost when the component is gone; a render
    runs the cleanup of the previous render when the subscription cell
    has changed; the unmount runs the cleanup of the last render. *)
Definition async_step (ev : AsyncEvent) (i : Instance) : Instance :=
  match ev with
  | PressTrackingButton =>
      if mounted i && offered (rendered i) PressTracking then
        MkInstance (exec (watchLocation_begin (rendered i)) (world i))
                   (rendered i)
                   (if isTracking (rendered i) then pendingWatches i
                    else S (pendingWatches i))
                   true
      else i
  | WatchSettles outcome =>
      match pendingWatches i with
      | 0 => i
      | S n =>
          let w' := exec (watchLocation_settle outcome) (world i) in
          MkInstance (if mounted i then w'
                      else MkWorld (ui (world i)) (platform w') (log w'))
                     (rendered i) n (mounted i)
      end
  | Render =>
      if mounted i then
        MkInstance (exec (commit (rendered i)) (world i)) (ui (world i))
                   (pendingWatches i) true
      else i
  | Unmount =>
      if mounted i then
        MkInstance (exec (cleanup (locationSubscription (rendered i))) (world i))
                   (rendered i) (pendingWatches i) false
      else i
  end.

Definition async_run (evs : list AsyncEvent) (i : Instance) : Instance :=
  foldl (λ i ev, async_step ev i) i evs.

(** The events of one press handled with nothing else in between, as
    [LocationScreen.step] has it. *)
Definition atomic_press (env : Env) (w : W) : list AsyncEvent :=
  if isTracking (ui w) then [PressTrackingButton; Render]
  else [PressTrackingButton; WatchSettles (watchPosition env); Render].

(** The calls that register or remove a subscription. *)
Definition is_subscription_call (e : Event) : bool :=
  match e with
  | WatchPositionAsync | SubscriptionRemove _ => true
  | _ => false
  end.

(** Two presses of "Start Tracking" before the first watch settles (the
    button stays enabled while loading, source lines 333-336), both
    watches accepted before the next render, then "Stop Tracking" and the
    unmount of the screen. *)
Definition doubleStart : list AsyncEvent :=
  [PressTrackingButton; Render; PressTrackingButton;
   WatchSettles (Normal ()); WatchSettles (Normal ());
   Render; PressTrackingButton; Render; Unmount].

(** "Start Tracking", then the unmount while the watch is pending. *)
Definition leaveWhilePending : list AsyncEvent :=
  [PressTrackingButton; Unmount; WatchSettles (Normal ())].

End LocationAsync.

(** ** The camera screen across renders

    React attaches [cameraRef.current] while the [CameraView] of source
    lines 256-261 is rendered and sets it to null when another screen is
    rendered in its place. *)

Module CameraCommit.
Import CameraScreen.

Definition setCameraRef_current v (s : State) : State :=
  MkState (permission s) (cameraType s) (capturedImage s) (isCameraReady s) (isLoading s)
          (galleryPermission s) (testMode s) v.

Definition commit : Handler () :=
  s ← getState;
  setState (setCameraRef_current (is_camera_view (render s))).

(** One turn of the screen: the handler, then the render. *)
Definition step (ev : UIEvent) (env : Env) (w : W) : W :=
  exec (handler ev env;; commit) w.

(** The log entries a handler adds, each with the cells it was issued
    under. *)
Definition stamped {A} (m : Handler A) (w : W) : list (State * Event) :=
  log (exec m (MkWorld (ui w) (platform w) [])).

(** A request for the gallery permission is issued under a cache that is
    not granted. *)
Definition gallery_request_gated (entry : State * Event) : Prop :=
  entry.2 = MediaLibrary_requestPermissionsAsync → gallery_granted entry.1 = false.

(** A request for the camera permission is issued while the cached
    permission is not granted, or in the test mode 'granted'. *)
Definition camera_request_gated (entry : State * Event) : Prop :=
  entry.2 = RequestPermission →
  permission_granted entry.1 = false ∨ testMode entry.1 = testGranted.

(** Calls to the camera hardware. *)
Definition is_capture (e : Event) : bool :=
  match e with TakePictureAsync => true | _ => false end.

(** The hardware fails the capture. *)
Definition envCaptureFails : Env :=
  MkEnv (Normal Granted) (Normal Granted) (Normal (MkResponse Granted true))
        (Thrown "Camera is not running") (Normal (MkPicked true []))
        (Normal ()) (Normal ()).

End CameraCommit.

(** * Properties *)

Create HintDb js discriminated.
#[global] Hint Unfold exec result events issued mbind mret Js_bind Js_ret js_bind js_ret
  await emit setState setPlatform getPlatform getState throw try_finally try_catch : js.

(** Symbolic execution of a handler: unfold the monad and the handlers
    registered in the [js] database, then compute. *)
Ltac js_run := repeat (autounfold with js in *; cbn in * ).

(** A log extended by entries that are each gated by computation. *)
Ltac gated_log :=
  repeat apply Forall_app_2; try assumption;
  (apply Forall_singleton; cbn; intuition congruence).

#[local] Set Warnings "-clear-no-such-hyp".

(** ** The location screen *)

Module LocationTheory.
Import LocationScreen.

#[local] Hint Unfold step handler checkLocationPermission requestPermissionAgain
  getCurrentLocation watchLocation stopTracking onLocationUpdate commit unmount
  cleanup subscription_remove watchPositionAsync : js.

(** The screen on concrete answers: a mount under a denied permission, a
    mount under a granted one, and a start of the tracking. *)
Example mount_denied :
  events (step Mount envDenied initialWorld)
    = [GetForegroundPermissionsAsync; RequestForegroundPermissionsAsync;
       AlertAlert "Location Permission Required"
         "This app needs location access to show your current position. Please enable location in your device settings."] ∧
  render (ui (step Mount envDenied initialWorld)) = PermissionScreen.
Proof. by split. Qed.

Example mount_granted :
  events mountedWorld = [GetForegroundPermissionsAsync; GetCurrentPositionAsync] ∧
  location (ui mountedWorld) = Some sampleFix ∧
  render (ui mountedWorld) = MainScreen.
Proof. by repeat split. Qed.

Example tracking_started :
  live (platform trackingWorld) = {[0]} ∧
  locationSubscription (ui trackingWorld) = Some 0 ∧
  isTracking (ui trackingWorld) = true.
Proof. by repeat split. Qed.

Lemma consistent_initial : consistent initialWorld.
Proof. by split. Qed.

Lemma size_held s : (size (held s) ≤ 1)%nat.
Proof.
  unfold held. destruct (locationSubscription s).
  - by rewrite size_singleton.
  - by rewrite size_empty; lia.
Qed.

Lemma consistent_one_live w : consistent w → (size (live (platform w)) ≤ 1)%nat.
Proof. intros [-> _]. apply size_held. Qed.

(** The handlers that never touch the subscription keep the world
    consistent; [watchLocation] restores consistency by its end. *)
Lemma consistent_step ev env w : consistent w → consistent (step ev env w).
Proof.
  intros [Hl Ht]. destruct w as [s os lg], s as [l e ld p tr sub r], os as [lv n].
  unfold held in *. cbn in Hl, Ht. subst lv tr.
  destruct env as [g rq c wp], ev.
  1,2: destruct g as [[]|]; try destruct rq as [[]|]; try destruct c;
       js_run; case_decide; try done; by split.
  1,2: destruct c; js_run; case_decide; try done; by split.
  - destruct sub as [h|]; js_run.
    + split; cbn; [set_solver | done].
    + destruct wp; js_run; split; cbn; try done; set_solver.
  - js_run; case_decide; try done; by split.
Qed.

Lemma reachable_consistent w : reachable w → consistent w.
Proof.
  induction 1 as [|w ev env _ IH _].
  - apply consistent_initial.
  - by apply consistent_step.
Qed.

(** What [watchLocation] does to a consistent world. *)
Lemma watchLocation_stops env w :
  consistent w → isTracking (ui w) = true →
  let w' := step PressTracking env w in
  live (platform w') = ∅ ∧ locationSubscription (ui w') = None ∧
  isTracking (ui w') = false ∧
  WatchPositionAsync ∉ issued (watchLocation env) w.
Proof.
  intros [Hl Ht] Htr. destruct w as [s os lg], s as [l e ld p tr sub r], os as [lv n].
  unfold held in *. cbn in Hl, Ht, Htr. subst lv tr.
  destruct sub as [h|]; [|done]. js_run.
  repeat split; [set_solver|]. rewrite !list_elem_of_In. cbn. intuition congruence.
Qed.

Lemma watchLocation_starts env w :
  consistent w → isTracking (ui w) = false → watchPosition env = Normal () →
  let w' := step PressTracking env w in
  live (platform w') = {[next_id (platform w)]} ∧
  locationSubscription (ui w') = Some (next_id (platform w)) ∧
  isTracking (ui w') = true.
Proof.
  intros [Hl Ht] Htr Hwp. destruct w as [s os lg], s as [l e ld p tr sub r], os as [lv n].
  destruct env as [g rq c wp]. unfold held in *. cbn in Hl, Ht, Htr, Hwp. subst lv tr wp.
  destruct sub as [h|]; [done|]. js_run. repeat split. set_solver.
Qed.

Lemma unmount_twice w :
  platform (exec unmount (exec unmount w)) = platform (exec unmount w) ∧
  ui (exec unmount (exec unmount w)) = ui (exec unmount w).
Proof.
  destruct w as [s os lg], s as [l e ld p tr sub r], os as [lv n].
  destruct sub as [h|]; js_run; [|done].
  split; [|done]. f_equal. set_solver.
Qed.

Lemma stopTracking_twice w :
  exec stopTracking (exec stopTracking w) = exec stopTracking w.
Proof.
  destruct w as [s os lg], s as [l e ld p tr sub r], os as [lv n].
  by destruct sub as [h|]; js_run.
Qed.

Lemma cancel_closes w :
  consistent w →
  session (exec unmount w) = Closed ∧ session (exec stopTracking w) = Closed.
Proof.
  intros [Hl _]. destruct w as [s os lg], s as [l e ld p tr sub r], os as [lv n].
  unfold held, session in *. cbn in Hl. subst lv.
  destruct sub as [h|]; js_run; split; apply decide_True; set_solver.
Qed.

Lemma closed_cancel_noop w :
  consistent w → session w = Closed →
  exec unmount w = w ∧ platform (exec stopTracking w) = platform w.
Proof.
  intros [Hl _]. destruct w as [s os lg], s as [l e ld p tr sub r], os as [lv n].
  unfold held, session in *. cbn in Hl. subst lv. cbn.
  destruct sub as [h|]; [|done].
  case_decide as Hempty; [|done]. set_solver.
Qed.

(** Every acquisition a handler offered by the screen makes is made
    under a granted permission. *)
Lemma Gated_step ev env w :
  offered (ui w) ev = true → Gated w → Gated (step ev env w).
Proof.
  unfold Gated, gated. intros Hoff Hg.
  destruct w as [s os lg], s as [l e ld p tr sub r], os as [lv n].
  destruct env as [g rq c wp], ev; cbn in Hoff.
  1,2: destruct g as [[]|]; try destruct rq as [[]|]; try destruct c;
       js_run; case_decide; try done; gated_log.
  1,2,3: destruct p as [[]|]; try done.
  1,2: destruct c; js_run; case_decide; try done; gated_log.
  - destruct tr, sub as [h|]; try destruct wp; js_run; repeat case_decide; try done;
      gated_log.
  - js_run; case_decide; try done; gated_log.
Qed.

Lemma reachable_Gated w : reachable w → Gated w.
Proof.
  induction 1 as [|w ev env _ IH Hoff].
  - constructor.
  - by apply Gated_step.
Qed.

(** C1 (amended): [watchLocation] is a toggle.  In every world the screen
    can reach at most one subscription is registered; calling
    [watchLocation] while tracking removes the held subscription and
    starts none, and calling it while not tracking registers exactly the
    new one when the platform accepts the watch. *)
Theorem watchLocation_toggles_one_subscription (env : Env) (w : W) :
  reachable w →
  (size (live (platform w)) ≤ 1)%nat ∧
  let w' := step PressTracking env w in
  (size (live (platform w')) ≤ 1)%nat ∧
  (isTracking (ui w) = true →
     live (platform w') = ∅ ∧ locationSubscription (ui w') = None ∧
     isTracking (ui w') = false ∧
     WatchPositionAsync ∉ issued (watchLocation env) w) ∧
  (isTracking (ui w) = false → watchPosition env = Normal () →
     live (platform w') = {[next_id (platform w)]} ∧
     locationSubscription (ui w') = Some (next_id (platform w)) ∧
     isTracking (ui w') = true).
Proof.
  intros Hc%reachable_consistent. split; [by apply consistent_one_live|].
  cbn zeta. split; [by apply consistent_one_live, consistent_step|]. split.
  - by apply watchLocation_stops.
  - by apply watchLocation_starts.
Qed.

Lemma watchLocation_toggles_one_subscription_witness :
  reachable trackingWorld ∧
  (size (live (platform trackingWorld)) ≤ 1)%nat ∧
  live (platform (step PressTracking envGranted trackingWorld)) = ∅.
Proof.
  assert (Hr : reachable trackingWorld).
  { apply (reachable_step _ PressTracking); [|reflexivity].
    apply (reachable_step _ Mount); [|reflexivity].
    apply reachable_initial. }
  split; [exact Hr|].
  destruct (watchLocation_toggles_one_subscription envGranted trackingWorld Hr)
    as (Hsize & _ & Hstop & _).
  split; [exact Hsize|]. apply Hstop. reflexivity.
Defined.

(** C1 (as stated, refuted): with a subscription active, [watchLocation]
    removes it and returns; no new subscription is started. *)
Lemma watchLocation_while_tracking_starts_none :
  isTracking (ui trackingWorld) = true ∧
  live (platform trackingWorld) = {[0]} ∧
  issued (watchLocation envGranted) trackingWorld = [SubscriptionRemove 0] ∧
  ¬ (WatchPositionAsync ∈ issued (watchLocation envGranted) trackingWorld) ∧
  live (platform (exec (watchLocation envGranted) trackingWorld)) = ∅ ∧
  locationSubscription (ui (exec (watchLocation envGranted) trackingWorld)) = None.
Proof.
  repeat split; try reflexivity.
  intros Hin%list_elem_of_In. vm_compute in Hin. intuition congruence.
Qed.

(** X27: the effect cleanup run on unmount and the stop branch of
    [watchLocation] complete normally in every state, and cancelling
    twice leaves what cancelling once leaves.  When the subscriptions
    registered with the platform are exactly the one the component holds
    (as they are while handlers run one at a time), cancelling ends with
    none registered, and with none registered it changes nothing in the
    platform. *)
Theorem cancel_safe_idempotent_closed (w : W) :
  result unmount w = Normal () ∧
  result stopTracking w = Normal () ∧
  platform (exec unmount (exec unmount w)) = platform (exec unmount w) ∧
  ui (exec unmount (exec unmount w)) = ui (exec unmount w) ∧
  exec stopTracking (exec stopTracking w) = exec stopTracking w ∧
  (consistent w →
     session (exec unmount w) = Closed ∧ session (exec stopTracking w) = Closed) ∧
  (consistent w → session w = Closed →
     exec unmount w = w ∧ platform (exec stopTracking w) = platform w).
Proof.
  split; [|split].
  - destruct w as [s os lg], s as [l e ld p tr sub r]. by destruct sub.
  - destruct w as [s os lg], s as [l e ld p tr sub r]. by destruct sub.
  - destruct (unmount_twice w) as [? ?].
    split; [done|]. split; [done|]. split; [apply stopTracking_twice|].
    split; [apply cancel_closes|]. by apply closed_cancel_noop.
Qed.

Lemma cancel_safe_idempotent_closed_witness :
  consistent trackingWorld ∧
  session trackingWorld = Watching ∧
  session (exec unmount trackingWorld) = Closed ∧
  session (exec stopTracking trackingWorld) = Closed ∧
  session (exec unmount (exec unmount trackingWorld)) = Closed.
Proof.
  assert (Hc : consistent trackingWorld) by (split; reflexivity).
  destruct (cancel_safe_idempotent_closed trackingWorld)
    as (_ & _ & _ & _ & _ & Hclosed & _).
  destruct (Hclosed Hc) as [Hu Hs].
  repeat split; try assumption; reflexivity.
Defined.

(** C2: when the platform reports the location permission as not
    granted, both on the read and on the request,
    [checkLocationPermission] ends with the permission-denied error and
    has called neither [getCurrentPositionAsync] nor
    [watchPositionAsync]; and every call that acquires the location
    resource in a handler the screen offers is made while the recorded
    permission status is granted. *)
Theorem denied_permission_never_acquires :
  (∀ (env : Env) (w : W) st st',
     getForegroundPermissions env = Normal st → st ≠ Granted →
     requestForegroundPermissions env = Normal st' → st' ≠ Granted →
     let w' := exec (checkLocationPermission env) w in
     errorMsg (ui w') = Some "Permission to access location was denied" ∧
     permissionStatus (ui w') = Some st' ∧
     location (ui w') = location (ui w) ∧
     count_event acquires (issued (checkLocationPermission env) w) = 0 ∧
     (offered (ui w') PressGetCurrent || offered (ui w') PressRetry
      || offered (ui w') PressTracking) = false) ∧
  (∀ (ev : UIEvent) (env : Env) (w : W),
     offered (ui w) ev = true → Gated w → Gated (step ev env w)) ∧
  (∀ w : W, reachable w → Gated w).
Proof.
  split; [|split].
  - intros [g rq c wp] [s os lg] st st' Hg Hst Hrq Hst'. cbn in Hg, Hrq. subst g rq.
    destruct s as [l e ld p tr sub r].
    destruct st, st'; try done; by js_run.
  - apply Gated_step.
  - apply reachable_Gated.
Qed.

Lemma denied_permission_never_acquires_witness :
  errorMsg (ui (exec (checkLocationPermission envDenied) initialWorld))
    = Some "Permission to access location was denied" ∧
  issued (checkLocationPermission envDenied) initialWorld
    = [GetForegroundPermissionsAsync; RequestForegroundPermissionsAsync;
       AlertAlert "Location Permission Required"
         "This app needs location access to show your current position. Please enable location in your device settings."] ∧
  Gated (step PressGetCurrent envGranted mountedWorld).
Proof.
  destruct denied_permission_never_acquires as (Hdenied & Hstep & Hreach).
  split; [|split].
  - apply (Hdenied envDenied initialWorld Denied Denied); done.
  - reflexivity.
  - apply Hstep; [reflexivity|]. apply Hreach.
    apply (reachable_step _ Mount); [|reflexivity]. apply reachable_initial.
Defined.

End LocationTheory.

(** ** The location screen between renders: what cancelling misses *)

Module LocationRace.
Import LocationScreen LocationAsync.

#[local] Hint Unfold step handler watchLocation stopTracking commit unmount cleanup
  subscription_remove watchPositionAsync watchLocation_begin watchLocation_settle : js.

(** The two halves of [watchLocation], run back to back on the cells
    of the current render, are [watchLocation]. *)
Lemma watchLocation_split env w :
  exec (watchLocation env) w
    = if isTracking (ui w) then exec (watchLocation_begin (ui w)) w
      else exec (watchLocation_settle (watchPosition env))
                (exec (watchLocation_begin (ui w)) w).
Proof.
  destruct w as [s os lg], s as [l e ld p tr sub r], env as [g rq c wp], os as [lv n].
  by destruct tr, sub, wp; js_run.
Qed.

(** A press handled with nothing in between (the press, the settlement
    of its watch, the render) is one [step] of the screen. *)
Lemma atomic_press_is_step env w :
  offered (ui w) PressTracking = true →
  world (async_run (atomic_press env w) (mountInstance w)) = step PressTracking env w.
Proof.
  destruct w as [s os lg], s as [l e ld p tr sub r], env as [g rq c wp], os as [lv n].
  unfold atomic_press, async_run, mountInstance. cbn. intros Hoff.
  destruct tr; cbn; rewrite Hoff; cbn.
  - by destruct sub; js_run.
  - by destruct sub, wp; js_run.
Qed.

Lemma async_run_cons ev evs i :
  async_run (ev :: evs) i = async_run evs (async_step ev i).
Proof. reflexivity. Qed.

(** Once the screen is gone nothing releases a subscription: whatever
    happens next, what is registered stays registered. *)
Lemma unmounted_never_releases evs i :
  mounted i = false →
  mounted (async_run evs i) = false ∧
  live (platform (world i)) ⊆ live (platform (world (async_run evs i))).
Proof.
  revert i. induction evs as [|ev evs IH]; intros i Hm; [done|].
  rewrite async_run_cons.
  assert (Hstep : mounted (async_step ev i) = false ∧
                  live (platform (world i)) ⊆ live (platform (world (async_step ev i)))).
  { destruct i as [[s os lg] rd pw m]. cbn in Hm. subst m.
    destruct ev as [|outcome| |]; cbn; try done.
    destruct pw as [|pw]; [done|]. split; [done|].
    destruct os as [lv n], outcome; js_run; set_solver. }
  destruct Hstep as [Hm' Hsub]. destruct (IH _ Hm') as [Hm'' Hsub'].
  split; [done|]. set_solver.
Qed.

Lemma unmounted_stays_watching evs i n :
  mounted i = false →
  n ∈ live (platform (world i)) →
  session (world (async_run evs i)) = Watching.
Proof.
  intros Hm Hin. destruct (unmounted_never_releases evs i Hm) as [_ Hsub].
  unfold session. apply decide_False. intros Hempty.
  rewrite Hempty in Hsub. set_solver.
Qed.

(** C5 (the code falls short of the claim): cancelling does not always
    end with the session closed.  After two presses of "Start Tracking"
    before the first watch settles, both watches accepted before the next
    render, a press of "Stop Tracking" and the unmount of the screen
    leave the first subscription registered: only the second one was
    ever held by the component.  Likewise when the screen is unmounted
    while a watch is pending and the watch is then accepted.  In both
    cases the subscription stays registered whatever happens next. *)
Theorem cancel_leaves_subscription_of_overlapping_start :
  let stopped := async_run doubleStart (mountInstance mountedWorld) in
  let left := async_run leaveWhilePending (mountInstance mountedWorld) in
  (reachable mountedWorld ∧ session mountedWorld = Closed ∧
   offered (ui mountedWorld) PressTracking = true) ∧
  (mounted stopped = false ∧ pendingWatches stopped = 0 ∧
   isTracking (ui (world stopped)) = false ∧
   locationSubscription (ui (world stopped)) = None ∧
   List.filter is_subscription_call (events (world stopped))
     = [WatchPositionAsync; WatchPositionAsync;
        SubscriptionRemove 1; SubscriptionRemove 1] ∧
   live (platform (world stopped)) = {[0]} ∧
   session (world stopped) = Watching ∧
   ∀ evs, session (world (async_run evs stopped)) = Watching) ∧
  (mounted left = false ∧ pendingWatches left = 0 ∧
   List.filter is_subscription_call (events (world left)) = [WatchPositionAsync] ∧
   live (platform (world left)) = {[0]} ∧
   session (world left) = Watching ∧
   ∀ evs, session (world (async_run evs left)) = Watching).
Proof.
  intros stopped left.
  assert (Hstopped : live (platform (world stopped)) = {[0]}) by (vm_compute; reflexivity).
  assert (Hleft : live (platform (world left)) = {[0]}) by (vm_compute; reflexivity).
  split; [|split].
  - split; [|split; vm_compute; reflexivity].
    apply (reachable_step _ Mount envGranted); [constructor|reflexivity].
  - do 5 (split; [vm_compute; reflexivity|]).
    split; [exact Hstopped|]. split; [vm_compute; reflexivity|].
    intros evs. apply (unmounted_stays_watching evs stopped 0); [vm_compute; reflexivity|].
    rewrite Hstopped. set_solver.
  - do 3 (split; [vm_compute; reflexivity|]).
    split; [exact Hleft|]. split; [vm_compute; reflexivity|].
    intros evs. apply (unmounted_stays_watching evs left 0); [vm_compute; reflexivity|].
    rewrite Hleft. set_solver.
Qed.

End LocationRace.

(** ** The camera screen *)

Module CameraTheory.
Import CameraScreen.

#[local] Hint Unfold handler checkGalleryPermission requestGalleryPermission
  handlePermissionRequest takePicture pickImageFromGallery saveToGallery
  toggleCameraType resetCamera onCameraReady : js.

(** The screen on concrete answers: a save with the gallery permission
    cached, and a capture whose hardware call fails. *)
Example save_with_permission :
  issued (saveToGallery envGranted) previewWorld
    = [MediaLibrary_createAssetAsync "file:///cache/Camera/photo.jpg";
       MediaLibrary_createAlbumAsync "MyAppCamera";
       AlertAlert "Success" "Image saved to gallery!";
       ConsoleLog "Image saved to gallery"].
Proof. reflexivity. Qed.

Example capture_failure_is_not_fatal :
  let env := MkEnv (Normal Granted) (Normal Granted) (Normal (MkResponse Granted true))
                   (Thrown "Camera is not running") (Normal (MkPicked true []))
                   (Normal ()) (Normal ()) in
  issued (takePicture env) readyWorld
    = [TakePictureAsync; ConsoleError "Camera error:";
       AlertAlert "Error" "Failed to take picture"] ∧
  capturedImage (ui (exec (takePicture env) readyWorld)) = None ∧
  phase (ui (exec (takePicture env) readyWorld)) = Ready.
Proof. by repeat split. Qed.

Lemma phase_Ready s :
  phase s = Ready →
  permission_granted s = true ∧ cameraRef_current s = true ∧
  isLoading s = false ∧ isCameraReady s = true.
Proof.
  unfold phase.
  destruct (permission_granted s), (cameraRef_current s), (isLoading s),
    (isCameraReady s); cbn; by intros.
Qed.

#[local] Hint Unfold CameraCommit.step CameraCommit.commit : js.

(** C4 (amended): with the camera permission granted and the session
    ready in the camera view, [takePicture] completes normally, stores
    the photo the hardware returned, unchanged, as the captured image and
    resets [isLoading], the session being in its capturing phase while
    the hardware call is in flight.  The render that follows shows the
    preview in place of the camera view and detaches the camera ref: the
    session is then closed, the capture is no longer offered and a
    further [takePicture] does nothing, until [resetCamera] brings the
    camera view back, where the session is ready at once.  A capture the
    hardware fails leaves the session ready. *)
Theorem takePicture_stores_photo_then_preview_closes
    (env : Env) (w : W) (photo : ImageAsset) :
  render (ui w) = CameraViewScreen →
  phase (ui w) = Ready →
  takePictureAsync env = Normal photo →
  let returned := exec (takePicture env) w in
  let shown := CameraCommit.step PressCapture env w in
  result (takePicture env) w = Normal () ∧
  capturedImage (ui returned) = Some photo ∧
  isLoading (ui returned) = false ∧
  isCameraReady (ui returned) = true ∧
  issued (takePicture env) w = [TakePictureAsync; ConsoleLog "Photo taken:"] ∧
  (∀ s, (s, TakePictureAsync) ∈ log returned →
        (s, TakePictureAsync) ∈ log w ∨ phase s = Capturing) ∧
  capturedImage (ui shown) = Some photo ∧
  render (ui shown) = PreviewScreen ∧
  cameraRef_current (ui shown) = false ∧
  phase (ui shown) = Closed ∧
  offered (ui shown) PressCapture = false ∧
  (∀ env', exec (takePicture env') shown = shown) ∧
  (∀ env', phase (ui (CameraCommit.step PressRetake env' shown)) = Ready) ∧
  (∀ env' e, takePictureAsync env' = Thrown e →
     phase (ui (CameraCommit.step PressCapture env' w)) = Ready ∧
     capturedImage (ui (CameraCommit.step PressCapture env' w)) = None).
Proof.
  intros Hrender (Hp & Hr & Hl & Hc)%phase_Ready Hphoto.
  destruct w as [s os lg], s as [p ct ci rdy ld gp tm cr], env as [e1 e2 e3 e4 e5 e6 e7].
  unfold phase, permission_granted, render, offered, render in *.
  cbn in Hrender, Hp, Hr, Hl, Hc, Hphoto.
  subst cr ld rdy e4. destruct p as [[pst []]|], tm, ci; try done.
  js_run. do 5 (split; [done|]). split.
  { intros s [[Hin|Hin]%elem_of_app|Hin]%elem_of_app.
    - by left.
    - apply list_elem_of_singleton in Hin. injection Hin as ->. by right.
    - apply list_elem_of_singleton in Hin. congruence. }
  do 5 (split; [done|]). split; [done|]. split; [done|].
  intros [f1 f2 f3 f4 f5 f6 f7] e Hf. cbn in Hf. subst f4. by js_run.
Qed.

Lemma takePicture_stores_photo_then_preview_closes_witness :
  phase (ui readyWorld) = Ready ∧
  capturedImage (ui (exec (takePicture envGranted) readyWorld)) = Some samplePhoto ∧
  render (ui (CameraCommit.step PressCapture envGranted readyWorld)) = PreviewScreen ∧
  phase (ui (CameraCommit.step PressRetake envGranted
               (CameraCommit.step PressCapture envGranted readyWorld))) = Ready.
Proof.
  destruct (takePicture_stores_photo_then_preview_closes envGranted readyWorld samplePhoto
              eq_refl eq_refl eq_refl)
    as (_ & Himg & _ & _ & _ & _ & _ & Hprev & _ & _ & _ & _ & Hretake & _).
  split; [reflexivity|]. split; [exact Himg|]. split; [exact Hprev|apply Hretake].
Defined.

(** C4 (as stated, refuted): from a ready session with the permission
    granted, a capture that succeeds with a photo of non-empty URI does
    not leave the session ready: once the preview is rendered the camera
    ref is detached, the session is closed, the capture is not offered
    and [takePicture] does nothing. *)
Lemma capture_does_not_stay_ready :
  permission_granted (ui readyWorld) = true ∧
  phase (ui readyWorld) = Ready ∧
  capturedImage (ui (CameraCommit.step PressCapture envGranted readyWorld))
    = Some samplePhoto ∧
  uri samplePhoto ≠ "" ∧
  render (ui (CameraCommit.step PressCapture envGranted readyWorld)) = PreviewScreen ∧
  phase (ui (CameraCommit.step PressCapture envGranted readyWorld)) = Closed ∧
  phase (ui (CameraCommit.step PressCapture envGranted readyWorld)) ≠ Ready ∧
  offered (ui (CameraCommit.step PressCapture envGranted readyWorld)) PressCapture = false ∧
  exec (takePicture envGranted) (CameraCommit.step PressCapture envGranted readyWorld)
    = CameraCommit.step PressCapture envGranted readyWorld.
Proof. repeat split; try reflexivity; discriminate. Qed.

(** C7 (amended): [toggleCameraType] is offered whenever the camera view
    is shown, ready or not; it completes normally in every state, selects
    the opposite lens and writes no other cell, so [isCameraReady] and the
    phase of the session are what they were; toggling twice restores the
    lens. *)
Theorem toggleCameraType_flips_lens_only (w : W) :
  offered (ui w) PressToggle = is_camera_view (render (ui w)) ∧
  result toggleCameraType w = Normal () ∧
  exec toggleCameraType w
    = MkWorld (setCameraType (opposite (cameraType (ui w))) (ui w)) (platform w) (log w) ∧
  isCameraReady (ui (exec toggleCameraType w)) = isCameraReady (ui w) ∧
  phase (ui (exec toggleCameraType w)) = phase (ui w) ∧
  cameraType (ui (exec toggleCameraType (exec toggleCameraType w))) = cameraType (ui w).
Proof.
  destruct w as [s os lg], s as [p ct ci rdy ld gp tm cr].
  repeat split. by destruct ct.
Qed.

(** C7 (as stated, refuted): the lens can be switched while the session
    is still opening, and switching it from a ready session leaves the
    session ready, with no passage through the opening phase: the only
    cell written is [cameraType]. *)
Lemma toggleCameraType_not_only_ready_never_opening :
  phase (ui openingWorld) = Opening ∧
  offered (ui openingWorld) PressToggle = true ∧
  cameraType (ui (exec toggleCameraType openingWorld)) = front ∧
  phase (ui readyWorld) = Ready ∧
  exec toggleCameraType readyWorld
    = MkWorld (setCameraType front (ui readyWorld)) () [] ∧
  phase (setCameraType front (ui readyWorld)) = Ready ∧
  phase (setCameraType front (ui readyWorld)) ≠ Opening.
Proof. repeat split; try reflexivity. discriminate. Qed.

(** C9: without a captured image [saveToGallery] returns at once and
    changes nothing; with the gallery permission not granted and the
    request for it declined (or failed) it returns after the alert without
    calling [createAssetAsync] or [createAlbumAsync]; and whenever the
    media store is called, or the save-error branch is taken, there is a
    captured image and the gallery permission is granted, from the cache
    or by the request. *)
Theorem saveToGallery_guards_media_store (env : Env) (w : W) :
  (capturedImage (ui w) = None →
     result (saveToGallery env) w = Normal () ∧ exec (saveToGallery env) w = w) ∧
  (gallery_granted (ui w) = false → requestPermissions env ≠ Normal Granted →
     result (saveToGallery env) w = Normal () ∧
     count_event contacts_media_store (issued (saveToGallery env) w) = 0 ∧
     (ConsoleError "Save error:" ∉ issued (saveToGallery env) w) ∧
     isLoading (ui (exec (saveToGallery env) w)) = isLoading (ui w)) ∧
  ((count_event contacts_media_store (issued (saveToGallery env) w) ≠ 0
    ∨ ConsoleError "Save error:" ∈ issued (saveToGallery env) w) →
     is_Some (capturedImage (ui w)) ∧
     (gallery_granted (ui w) = true ∨ requestPermissions env = Normal Granted)).
Proof.
  destruct w as [s os lg], s as [p ct ci rdy ld gp tm cr], env as [e1 e2 e3 e4 e5 e6 e7].
  unfold gallery_granted. cbn.
  split; [|split].
  - intros ->. by js_run.
  - intros Hg Hreq. destruct ci as [img|]; [|by js_run; repeat split; try done; set_solver].
    destruct gp as [[]|]; try done;
      (destruct e2 as [[]|]; try done; js_run; repeat split; try done;
       rewrite list_elem_of_In; cbn; intuition congruence).
  - intros Hcall. destruct ci as [img|]; [|js_run; destruct Hcall as [|Hin]; [done|set_solver]].
    split; [by eexists|].
    destruct gp as [[]|]; [by left| |];
      (destruct e2 as [[]|]; [by right| | |]; js_run;
       (destruct Hcall as [|Hin%list_elem_of_In]; [done|cbn in Hin; intuition congruence])).
Qed.

Lemma saveToGallery_guards_media_store_witness :
  exec (saveToGallery envGranted) openingWorld = openingWorld ∧
  count_event contacts_media_store (issued (saveToGallery envDenied) previewNoGalleryWorld) = 0 ∧
  count_event contacts_media_store (issued (saveToGallery envGranted) previewWorld) = 2 ∧
  is_Some (capturedImage (ui previewWorld)).
Proof.
  destruct (saveToGallery_guards_media_store envGranted openingWorld) as ([_ Hnone] & _ & _);
    [reflexivity|].
  destruct (saveToGallery_guards_media_store envDenied previewNoGalleryWorld)
    as (_ & Hdeclined & _).
  destruct Hdeclined as (_ & Hcount & _); [reflexivity|discriminate|].
  destruct (saveToGallery_guards_media_store envGranted previewWorld) as (_ & _ & Hcalled).
  destruct Hcalled as [Himg _]; [left; vm_compute; discriminate|].
  repeat split; assumption.
Defined.

End CameraTheory.

(** ** Permission requests, capability by capability

    The specification's [requestCapability] is, in the source, one
    function per capability: [checkLocationPermission] for the location,
    [checkGalleryPermission] and [requestGalleryPermission] for the media
    library, [handlePermissionRequest] for the camera. *)

Module Capability.

#[local] Hint Unfold LocationScreen.checkLocationPermission
  LocationScreen.getCurrentLocation CameraScreen.checkGalleryPermission
  CameraScreen.requestGalleryPermission CameraScreen.handlePermissionRequest
  CameraScreen.saveToGallery : js.

(** A log grown by entries that each satisfy the gate by computation. *)
Ltac request_log :=
  repeat first [apply Forall_nil | apply Forall_cons_2];
  try (cbn; intuition congruence).

(** Every request for the gallery permission is issued under a cached
    permission that is not granted, whatever handler runs. *)
Lemma gallery_requests_gated ev env w :
  Forall CameraCommit.gallery_request_gated
         (CameraCommit.stamped (CameraScreen.handler ev env) w).
Proof.
  unfold CameraCommit.gallery_request_gated, CameraCommit.stamped,
    CameraScreen.gallery_granted.
  destruct w as [s os lg], s as [p ct ci rdy ld gp tm cr], env as [e1 e2 e3 e4 e5 e6 e7].
  destruct ev; try (by js_run; request_log).
  - destruct e1 as [[]|]; js_run; request_log.
  - destruct e3 as [[? []]|]; js_run; request_log.
  - destruct ci; [|by js_run; request_log].
    destruct gp as [[]|], e2 as [[]|], e6, e7; js_run; request_log.
  - destruct e5 as [[[] ?]|]; js_run; request_log.
  - unfold CameraScreen.permission_granted. js_run.
    destruct cr, p as [[? []]|], e4; js_run; request_log.
Qed.

(** Every request for the camera permission in a handler the screen
    offers is issued while the cached permission is not granted, or in
    the test mode 'granted'. *)
Lemma camera_requests_gated ev env w :
  CameraScreen.offered (ui w) ev = true →
  Forall CameraCommit.camera_request_gated
         (CameraCommit.stamped (CameraScreen.handler ev env) w).
Proof.
  unfold CameraCommit.camera_request_gated, CameraCommit.stamped,
    CameraScreen.permission_granted, CameraScreen.offered, CameraScreen.render.
  destruct w as [s os lg], s as [p ct ci rdy ld gp tm cr], env as [e1 e2 e3 e4 e5 e6 e7].
  cbn. intros Hoff.
  destruct ev; try (by js_run; request_log).
  - destruct e1 as [[]|]; js_run; request_log.
  - destruct p as [[pst []]|], tm, ci; try done;
      (destruct e3 as [[? []]|]; js_run; request_log).
  - destruct ci; [|by js_run; request_log].
    destruct gp as [[]|], e2 as [[]|], e6, e7; js_run; request_log.
  - destruct e5 as [[[] ?]|]; js_run; request_log.
  - js_run. destruct cr, p as [[? []]|], e4; js_run; request_log.
Qed.

(** C3 (amended): the request for a capability follows the cached
    status.  [checkLocationPermission] reads the status first, requests
    nothing when it is granted, and otherwise requests exactly once and
    records the answer.  [saveToGallery] reads the cached gallery
    permission, requests nothing when it is granted and otherwise calls
    [requestGalleryPermission] exactly once, which records and returns
    the answer; no handler requests the gallery permission under a cache
    that is granted.  For the camera, with the test mode off the screen
    does not offer the request while the cached permission is granted;
    every camera request of an offered handler is made while it is not
    granted or in the test mode 'granted', and [handlePermissionRequest]
    requests exactly once and the answer is recorded. *)
Theorem permission_request_follows_cached_status :
  (∀ (env : LocationScreen.Env) (w : LocationScreen.W),
     let run := LocationScreen.checkLocationPermission env in
     head (issued run w) = Some LocationScreen.GetForegroundPermissionsAsync ∧
     (LocationScreen.getForegroundPermissions env = Normal Granted →
        LocationScreen.count_event LocationScreen.is_request (issued run w) = 0 ∧
        LocationScreen.permissionStatus (ui (exec run w)) = Some Granted) ∧
     (∀ st, LocationScreen.getForegroundPermissions env = Normal st → st ≠ Granted →
        LocationScreen.count_event LocationScreen.is_request (issued run w) = 1 ∧
        ∀ st', LocationScreen.requestForegroundPermissions env = Normal st' →
               LocationScreen.permissionStatus (ui (exec run w)) = Some st')) ∧
  (∀ (env : CameraScreen.Env) (w : CameraScreen.W) (image : CameraScreen.ImageAsset),
     CameraScreen.capturedImage (ui w) = Some image →
     let run := CameraScreen.saveToGallery env in
     (CameraScreen.gallery_granted (ui w) = true →
        CameraScreen.count_event CameraScreen.is_request (issued run w) = 0) ∧
     (CameraScreen.gallery_granted (ui w) = false →
        head (issued run w) = Some CameraScreen.MediaLibrary_requestPermissionsAsync ∧
        CameraScreen.count_event CameraScreen.is_request (issued run w) = 1 ∧
        ∀ st, CameraScreen.requestPermissions env = Normal st →
          result (CameraScreen.requestGalleryPermission env) w = Normal (is_granted st) ∧
          CameraScreen.galleryPermission (ui (exec run w)) = Some (is_granted st))) ∧
  (∀ (ev : CameraScreen.UIEvent) (env : CameraScreen.Env) (w : CameraScreen.W),
     Forall CameraCommit.gallery_request_gated
            (CameraCommit.stamped (CameraScreen.handler ev env) w)) ∧
  (∀ w : CameraScreen.W,
     CameraScreen.testMode (ui w) = CameraScreen.testOff →
     CameraScreen.permission_granted (ui w) = true →
     CameraScreen.offered (ui w) CameraScreen.PressGrantPermission = false) ∧
  (∀ (ev : CameraScreen.UIEvent) (env : CameraScreen.Env) (w : CameraScreen.W),
     CameraScreen.offered (ui w) ev = true →
     Forall CameraCommit.camera_request_gated
            (CameraCommit.stamped (CameraScreen.handler ev env) w)) ∧
  (∀ (env : CameraScreen.Env) (w : CameraScreen.W),
     let run := CameraScreen.handlePermissionRequest env in
     head (issued run w) = Some CameraScreen.RequestPermission ∧
     CameraScreen.count_event CameraScreen.is_request (issued run w) = 1 ∧
     (∀ r, CameraScreen.requestPermission env = Normal r →
        CameraScreen.permission (ui (exec run w)) = Some r)).
Proof.
  split; [|split; [|split; [|split; [|split]]]].
  - intros [g rq c wp] [s os lg]. destruct s as [l e ld p tr sub r]. cbn. split; [|split].
    + by destruct g as [[]|], rq as [[]|], c; js_run.
    + intros ->. by destruct c; js_run.
    + intros st -> Hst. destruct st; try done;
        (split; [by destruct rq as [[]|], c; js_run|]);
        intros st' ->; by destruct st', c; js_run.
  - intros [e1 e2 e3 e4 e5 e6 e7] [s os lg] image.
    destruct s as [p ct ci rdy ld gp tm cr].
    unfold CameraScreen.gallery_granted. cbn. intros ->. split.
    + intros Hg. destruct gp as [[]|]; try done.
      by destruct e6 as [[]|], e7 as [[]|]; js_run.
    + intros Hg.
      assert (Hcache : gp = Some false ∨ gp = None)
        by (destruct gp as [[]|]; [done|by left|by right]).
      split; [|split].
      * destruct Hcache as [-> | ->], e2 as [[]|], e6, e7; js_run; done.
      * destruct Hcache as [-> | ->], e2 as [[]|], e6, e7; js_run; done.
      * intros st ->. destruct Hcache as [-> | ->], st, e6, e7; js_run; done.
  - apply gallery_requests_gated.
  - intros [s os lg]. destruct s as [p ct ci rdy ld gp tm cr].
    unfold CameraScreen.permission_granted, CameraScreen.offered, CameraScreen.render.
    cbn. intros -> Hp. by destruct p as [[pst []]|], ci.
  - apply camera_requests_gated.
  - intros [e1 e2 e3 e4 e5 e6 e7] [s os lg]. destruct s as [p ct ci rdy ld gp tm cr]. cbn.
    split; [|split]; try (by destruct e3 as [[? []]|]; js_run).
    intros r ->. by destruct r as [? []]; js_run.
Qed.

Lemma permission_request_follows_cached_status_witness :
  LocationScreen.count_event LocationScreen.is_request
    (issued (LocationScreen.checkLocationPermission LocationScreen.envGranted)
            LocationScreen.initialWorld) = 0 ∧
  LocationScreen.count_event LocationScreen.is_request
    (issued (LocationScreen.checkLocationPermission LocationScreen.envDenied)
            LocationScreen.initialWorld) = 1 ∧
  CameraScreen.count_event CameraScreen.is_request
    (issued (CameraScreen.saveToGallery CameraScreen.envGranted)
            CameraScreen.previewWorld) = 0 ∧
  CameraScreen.count_event CameraScreen.is_request
    (issued (CameraScreen.saveToGallery CameraScreen.envGranted)
            CameraScreen.previewNoGalleryWorld) = 1 ∧
  CameraScreen.offered (ui CameraScreen.readyWorld) CameraScreen.PressGrantPermission
    = false ∧
  CameraScreen.permission
    (ui (exec (CameraScreen.handlePermissionRequest CameraScreen.envGranted)
              CameraScreen.openingWorld))
    = Some (CameraScreen.MkResponse Granted true).
Proof.
  destruct permission_request_follows_cached_status
    as (Hloc & Hlib & _ & Hgate & _ & Hcam).
  destruct (Hloc LocationScreen.envGranted LocationScreen.initialWorld) as (_ & Hgranted & _).
  destruct (Hloc LocationScreen.envDenied LocationScreen.initialWorld) as (_ & _ & Hdenied).
  destruct (Hlib CameraScreen.envGranted CameraScreen.previewWorld
              CameraScreen.samplePhoto eq_refl) as (Hcached & _).
  destruct (Hlib CameraScreen.envGranted CameraScreen.previewNoGalleryWorld
              CameraScreen.samplePhoto eq_refl) as (_ & Hasked).
  destruct (Hcam CameraScreen.envGranted CameraScreen.openingWorld) as (_ & _ & Hrec).
  split; [by apply Hgranted|].
  split; [by apply (Hdenied Denied)|].
  split; [by apply Hcached|].
  split; [by apply Hasked|].
  split; [by apply Hgate|].
  by apply Hrec.
Defined.

(** C3 (as stated, refuted): in the test mode 'granted', which the
    checking screen lets the user enter while the permission loads, the
    permission screen offers [handlePermissionRequest] although the
    camera permission is cached as granted, and the request is issued. *)
Lemma granted_camera_still_requests_in_test_mode :
  CameraScreen.offered CameraScreen.initialState CameraScreen.PressSimulateGranted = true ∧
  CameraScreen.testMode (ui CameraScreen.testGrantedWorld) = CameraScreen.testGranted ∧
  CameraScreen.permission (ui CameraScreen.testGrantedWorld)
    = Some (CameraScreen.MkResponse Granted true) ∧
  CameraScreen.permission_granted (ui CameraScreen.testGrantedWorld) = true ∧
  CameraScreen.offered (ui CameraScreen.testGrantedWorld)
                       CameraScreen.PressGrantPermission = true ∧
  issued (CameraScreen.handler CameraScreen.PressGrantPermission CameraScreen.envGranted)
         CameraScreen.testGrantedWorld
    = [CameraScreen.RequestPermission;
       CameraScreen.AlertAlert "Success" "Camera permission granted!"] ∧
  CameraScreen.count_event CameraScreen.is_request
    (issued (CameraScreen.handler CameraScreen.PressGrantPermission CameraScreen.envGranted)
            CameraScreen.testGrantedWorld) ≠ 0.
Proof. repeat split. discriminate. Qed.

(** C8: for each capability, when the platform answers the permission
    calls of a second request as it answered those of the first, the
    second request records (and, for [requestGalleryPermission], returns)
    the status the first one did, whatever the first one changed in the
    component; and a status the platform holds on every read and prompt
    is the one every call records. *)
Theorem permission_request_repeatable :
  (∀ (env1 env2 : LocationScreen.Env) (w : LocationScreen.W),
     LocationScreen.same_permission_answers env1 env2 →
     let w1 := exec (LocationScreen.checkLocationPermission env1) w in
     let w2 := exec (LocationScreen.checkLocationPermission env2) w1 in
     LocationScreen.permissionStatus (ui w2) = LocationScreen.permissionStatus (ui w1) ∧
     (∀ st, LocationScreen.getForegroundPermissions env1 = Normal st →
            LocationScreen.requestForegroundPermissions env1 = Normal st →
            LocationScreen.permissionStatus (ui w1) = Some st ∧
            LocationScreen.permissionStatus (ui w2) = Some st)) ∧
  (∀ (env1 env2 : CameraScreen.Env) (w : CameraScreen.W),
     CameraScreen.same_permission_answers env1 env2 →
     let check1 := exec (CameraScreen.checkGalleryPermission env1) w in
     let request1 := exec (CameraScreen.requestGalleryPermission env1) w in
     let camera1 := exec (CameraScreen.handlePermissionRequest env1) w in
     CameraScreen.galleryPermission
       (ui (exec (CameraScreen.checkGalleryPermission env2) check1))
       = CameraScreen.galleryPermission (ui check1) ∧
     result (CameraScreen.requestGalleryPermission env2) request1
       = result (CameraScreen.requestGalleryPermission env1) w ∧
     CameraScreen.galleryPermission
       (ui (exec (CameraScreen.requestGalleryPermission env2) request1))
       = CameraScreen.galleryPermission (ui request1) ∧
     CameraScreen.permission
       (ui (exec (CameraScreen.handlePermissionRequest env2) camera1))
       = CameraScreen.permission (ui camera1)).
Proof.
  split.
  - intros [g rq c wp] [g' rq' c' wp'] [s os lg] [Hg Hrq]. cbn in Hg, Hrq. subst g' rq'.
    destruct s as [l e ld p tr sub r]. cbn. split.
    + by destruct g as [[]|], rq as [[]|], c, c'; js_run.
    + intros st -> ->. by destruct st, c, c'; js_run.
  - intros [e1 e2 e3 e4 e5 e6 e7] [f1 f2 f3 f4 f5 f6 f7] [s os lg] (H1 & H2 & H3).
    cbn in H1, H2, H3. subst f1 f2 f3.
    destruct s as [p ct ci rdy ld gp tm cr]. cbn. repeat split.
    + by destruct e1; js_run.
    + by destruct e2; js_run.
    + by destruct e2; js_run.
    + by destruct e3 as [[? []]|]; js_run.
Qed.

Lemma permission_request_repeatable_witness :
  LocationScreen.same_permission_answers LocationScreen.envDenied LocationScreen.envDenied ∧
  LocationScreen.permissionStatus
    (ui (exec (LocationScreen.checkLocationPermission LocationScreen.envDenied)
           (exec (LocationScreen.checkLocationPermission LocationScreen.envDenied)
                 LocationScreen.initialWorld)))
    = Some Denied ∧
  CameraScreen.same_permission_answers CameraScreen.envGranted CameraScreen.envGranted ∧
  CameraScreen.galleryPermission
    (ui (exec (CameraScreen.checkGalleryPermission CameraScreen.envGranted)
           (exec (CameraScreen.checkGalleryPermission CameraScreen.envGranted)
                 CameraScreen.openingWorld)))
    = CameraScreen.galleryPermission
        (ui (exec (CameraScreen.checkGalleryPermission CameraScreen.envGranted)
                  CameraScreen.openingWorld)).
Proof.
  assert (Hl : LocationScreen.same_permission_answers LocationScreen.envDenied LocationScreen.envDenied)
    by (split; reflexivity).
  assert (Hc : CameraScreen.same_permission_answers CameraScreen.envGranted CameraScreen.envGranted)
    by (repeat split; reflexivity).
  destruct permission_request_repeatable as (Hloc & Hcam).
  destruct (Hloc _ _ LocationScreen.initialWorld Hl) as (_ & Hheld).
  destruct (Hcam _ _ CameraScreen.openingWorld Hc) as (Hcheck & _).
  split; [exact Hl|]. split; [by apply (Hheld Denied)|].
  split; [exact Hc|]. exact Hcheck.
Defined.

End Capability.

(** ** The login / register form *)

Module PracticeTheory.
Import Practice.

#[local] Hint Unfold handleSubmit saveUserData clearUserData toggleMode handleLogout : js.

(** The form on concrete answers: an accepted login stores the user. *)
Example accepted_login_stores_user :
  let env := MkEnv (Normal (MkResponse true
                              (Normal (MkData (Some "Login successful") (Some "ada")))))
                   (Normal ()) (Normal ()) (Normal ()) in
  let w := exec (handleSubmit sampleStringify env) filledLogin in
  currentUser (ui w) = Some "ada" ∧
  platform w !! "userData" = Some "ada" ∧
  email (ui w) = "" ∧ password (ui w) = "".
Proof. by repeat split. Qed.

Section Proofs.
Context {User : Type} (JSON_stringify : User → string).

(** C6: a login that the backend answers with a non-2xx response whose
    body carries a message makes the form show that message in an alert
    (the fallback text when the message is absent or empty), and leaves
    [currentUser] and the secure store as they were: no write to the
    store is attempted. *)
Theorem rejected_login_shows_message_caches_nothing
    (env : Env) (w : World State (gmap string string) Event) (data : Data (User := User)) :
  isLogin (ui w) = true →
  filled (email (ui w)) = true →
  filled (password (ui w)) = true →
  fetch env = Normal (MkResponse false (Normal data)) →
  let run := handleSubmit JSON_stringify env in
  result run w = Normal () ∧
  issued run w
    = [Fetch (API_BASE_URL ++ "/login")
             [("email", email (ui w)); ("password", password (ui w))];
       ResponseJson;
       AlertAlert "Error" (Some (or_else (message data) "Something went wrong"))] ∧
  (∀ m, message data = Some m → filled m = true →
        alerts (issued run w) = [("Error", Some m)]) ∧
  currentUser (ui (exec run w)) = currentUser (ui w) ∧
  platform (exec run w) = platform w ∧
  store_writes (issued run w) = [] ∧
  loading (ui (exec run w)) = false.
Proof.
  destruct w as [s store lg], s as [n e p lgn ld cu], env as [f g st d].
  cbn. intros -> He Hp ->. js_run. rewrite He, Hp. js_run.
  repeat split. intros m Hm Hf. unfold or_else. by rewrite Hm, Hf.
Qed.

(** C10: a registration that the backend answers with a 2xx response
    switches the form to login mode and empties the password field;
    [currentUser], the secure store, the name and the e-mail fields are
    left as they were and no write to the store is attempted. *)
Theorem accepted_register_switches_to_login_only
    (env : Env) (w : World State (gmap string string) Event) (data : Data (User := User)) :
  isLogin (ui w) = false →
  filled (name (ui w)) = true →
  filled (email (ui w)) = true →
  filled (password (ui w)) = true →
  fetch env = Normal (MkResponse true (Normal data)) →
  let run := handleSubmit JSON_stringify env in
  result run w = Normal () ∧
  isLogin (ui (exec run w)) = true ∧
  password (ui (exec run w)) = "" ∧
  currentUser (ui (exec run w)) = currentUser (ui w) ∧
  platform (exec run w) = platform w ∧
  store_writes (issued run w) = [] ∧
  name (ui (exec run w)) = name (ui w) ∧
  email (ui (exec run w)) = email (ui w) ∧
  loading (ui (exec run w)) = false ∧
  alerts (issued run w) = [("Success", message data)].
Proof.
  destruct w as [s store lg], s as [n e p lgn ld cu], env as [f g st d].
  cbn. intros -> Hn He Hp ->. js_run. rewrite Hn, He, Hp. by js_run.
Qed.

End Proofs.

Lemma rejected_login_shows_message_caches_nothing_witness :
  alerts (issued (handleSubmit sampleStringify envRejected) filledLogin)
    = [("Error", Some "Invalid credentials")] ∧
  currentUser (ui (exec (handleSubmit sampleStringify envRejected) filledLogin)) = None ∧
  platform (exec (handleSubmit sampleStringify envRejected) filledLogin) = ∅.
Proof.
  destruct (rejected_login_shows_message_caches_nothing sampleStringify envRejected
              filledLogin (MkData (Some "Invalid credentials") None)
              eq_refl eq_refl eq_refl eq_refl)
    as (_ & _ & Halert & Huser & Hstore & _).
  split; [by apply Halert|]. split; assumption.
Defined.

Lemma accepted_register_switches_to_login_only_witness :
  isLogin (ui (exec (handleSubmit sampleStringify envRegistered) filledRegister)) = true ∧
  password (ui (exec (handleSubmit sampleStringify envRegistered) filledRegister)) = "" ∧
  currentUser (ui (exec (handleSubmit sampleStringify envRegistered) filledRegister)) = None ∧
  platform (exec (handleSubmit sampleStringify envRegistered) filledRegister) = ∅.
Proof.
  destruct (accepted_register_switches_to_login_only sampleStringify envRegistered
              filledRegister (MkData (Some "User registered successfully") (Some "ada"))
              eq_refl eq_refl eq_refl eq_refl eq_refl)
    as (_ & Hlogin & Hpw & Huser & Hstore & _).
  repeat split; assumption.
Defined.

End PracticeTheory.

(** ** More on the location screen: outcomes, failures and display *)

Module LocationExtra.
Import LocationScreen LocationDisplay.

#[local] Hint Unfold step handler checkLocationPermission requestPermissionAgain
  getCurrentLocation watchLocation stopTracking onLocationUpdate commit unmount
  cleanup subscription_remove watchPositionAsync : js.

(** X1: [getCurrentLocation] never lets the platform's exception escape
    and always ends with [isLoading] reset; it touches neither the
    permission status, the tracking cells nor the subscriptions.  A fix
    replaces the location, centres the map on it and clears an earlier
    error; a failure keeps the previous location and map region, sets the
    GPS error and thereby hides the info panel. *)
Theorem getCurrentLocation_outcomes (env : Env) (w : W) :
  let w' := exec (getCurrentLocation env) w in
  result (getCurrentLocation env) w = Normal () ∧
  isLoading (ui w') = false ∧
  platform w' = platform w ∧
  permissionStatus (ui w') = permissionStatus (ui w) ∧
  isTracking (ui w') = isTracking (ui w) ∧
  locationSubscription (ui w') = locationSubscription (ui w) ∧
  (∀ pos, getCurrentPosition env = Normal pos →
     location (ui w') = Some pos ∧
     errorMsg (ui w') = None ∧
     mapRegion (ui w')
       = MkRegion (latitude (coords pos)) (longitude (coords pos)) 0.01 0.01 ∧
     infoPanelShown (ui w') = true ∧
     errorBannerShown (ui w') = false) ∧
  (∀ e, getCurrentPosition env = Thrown e →
     location (ui w') = location (ui w) ∧
     mapRegion (ui w') = mapRegion (ui w) ∧
     errorMsg (ui w') = Some "Unable to get location. Please ensure GPS is enabled." ∧
     infoPanelShown (ui w') = false ∧
     errorBannerShown (ui w') = true).
Proof.
  destruct w as [s os lg], s as [l e ld p tr sub r], env as [g rq c wp]. cbn.
  destruct c as [pos|err]; js_run.
  - do 6 (split; [done|]). split; intros x Hx; by simplify_eq.
  - do 6 (split; [done|]). split; intros x Hx; simplify_eq.
    unfold infoPanelShown. cbn. by destruct l.
Qed.

Lemma getCurrentLocation_outcomes_witness :
  location (ui (exec (getCurrentLocation envGranted) initialWorld)) = Some sampleFix ∧
  location (ui (exec (getCurrentLocation envNoFix) mountedWorld)) = Some sampleFix ∧
  infoPanelShown (ui (exec (getCurrentLocation envNoFix) mountedWorld)) = false.
Proof.
  destruct (getCurrentLocation_outcomes envGranted initialWorld)
    as (_ & _ & _ & _ & _ & _ & Hfix & _).
  destruct (getCurrentLocation_outcomes envNoFix mountedWorld)
    as (_ & _ & _ & _ & _ & _ & _ & Hfail).
  destruct (Hfix sampleFix eq_refl) as (Hloc & _).
  destruct (Hfail "Location request timed out" eq_refl) as (Hkept & _ & _ & Hpanel & _).
  split; [exact Hloc|]. split; [exact Hkept|exact Hpanel].
Defined.

(** X2: when the platform refuses the watch, [watchLocation] completes
    normally with nothing registered: the subscriptions of the platform
    and the subscription cell are as before, [isTracking] stays false,
    the watch error is set and [isLoading] is reset. *)
Theorem watchLocation_failure_registers_nothing (env : Env) (w : W) (e : string) :
  isTracking (ui w) = false →
  watchPosition env = Thrown e →
  let w' := exec (watchLocation env) w in
  result (watchLocation env) w = Normal () ∧
  platform w' = platform w ∧
  locationSubscription (ui w') = locationSubscription (ui w) ∧
  isTracking (ui w') = false ∧
  errorMsg (ui w') = Some "Unable to watch location" ∧
  isLoading (ui w') = false ∧
  issued (watchLocation env) w = [WatchPositionAsync; ConsoleError "Watch location error:"].
Proof.
  destruct w as [s os lg], s as [l er ld p tr sub r], env as [g rq c wp], os as [lv n].
  cbn. intros -> ->. by js_run.
Qed.

Lemma watchLocation_failure_registers_nothing_witness :
  live (platform (exec (watchLocation envWatchFails) mountedWorld)) = ∅ ∧
  isTracking (ui (exec (watchLocation envWatchFails) mountedWorld)) = false.
Proof.
  destruct (watchLocation_failure_registers_nothing envWatchFails mountedWorld
              "Location services are disabled" eq_refl eq_refl)
    as (_ & Hos & _ & Htr & _).
  split; [by rewrite Hos|exact Htr].
Defined.

(** X3: starting the tracking and stopping it again is a round trip: from
    a consistent state that is not tracking, two presses of the tracking
    button leave every cell as it was (with [isLoading] reset) and no
    subscription registered; only the number of the next subscription has
    advanced, so a subscription number is never reused. *)
Theorem tracking_start_stop_round_trip (env1 env2 : Env) (w : W) :
  consistent w →
  isTracking (ui w) = false →
  watchPosition env1 = Normal () →
  let w2 := step PressTracking env2 (step PressTracking env1 w) in
  ui w2 = setIsLoading false (ui w) ∧
  live (platform w2) = ∅ ∧
  next_id (platform w2) = S (next_id (platform w)) ∧
  events w2 = (events w ++ [WatchPositionAsync;
                            SubscriptionRemove (next_id (platform w));
                            SubscriptionRemove (next_id (platform w))])%list.
Proof.
  intros [Hl Ht]. destruct w as [s os lg], s as [l e ld p tr sub r], os as [lv n].
  destruct env1 as [g rq c wp], env2 as [g' rq' c' wp'].
  unfold held in *. cbn in Hl, Ht. cbn. intros -> ->. subst lv.
  destruct sub as [h|]; [done|]. js_run.
  repeat (case_decide; simplify_eq; js_run).
  repeat split.
  - set_solver.
  - by rewrite !fmap_app, <-!app_assoc.
Qed.

Lemma tracking_start_stop_round_trip_witness :
  consistent mountedWorld ∧
  ui (step PressTracking envGranted (step PressTracking envGranted mountedWorld))
    = ui mountedWorld ∧
  next_id (platform (step PressTracking envGranted
                       (step PressTracking envGranted mountedWorld))) = 1.
Proof.
  assert (Hc : consistent mountedWorld) by (split; reflexivity).
  destruct (tracking_start_stop_round_trip envGranted envGranted mountedWorld
              Hc eq_refl eq_refl) as (Hui & _ & Hnext & _).
  split; [exact Hc|]. split; [exact Hui|exact Hnext].
Defined.

(** X4: no handler of the location screen lets an exception of the
    platform escape, and every handler that sets [isLoading] resets it:
    after a mount, a permission request, a retry, a fix or a start of the
    tracking [isLoading] is false; stopping the tracking and a location
    update leave it as it was. *)
Theorem location_handlers_catch_and_reset (ev : UIEvent) (env : Env) (w : W) :
  result (handler ev env) w = Normal () ∧
  isLoading (ui (step ev env w))
    = match ev with
      | LocationUpdate _ => isLoading (ui w)
      | PressTracking => if isTracking (ui w) then isLoading (ui w) else false
      | _ => false
      end.
Proof.
  destruct w as [s os lg], s as [l e ld p tr sub r], env as [g rq c wp], os as [lv n].
  destruct ev.
  1,2: by destruct g as [[]|]; try destruct rq as [[]|]; try destruct c;
       js_run; case_decide.
  1,2: by destruct c; js_run; case_decide.
  - by destruct tr, sub; try destruct wp; js_run; repeat case_decide.
  - by js_run; case_decide.
Qed.

(** X5: when a permission call itself fails, [checkLocationPermission]
    reports the checking error and acquires nothing.  If the read fails,
    no request is made and the recorded status is left as it was; if the
    request fails after a read that was not granted, the status recorded
    is that of the read, so the permission screen is shown. *)
Theorem permission_call_failure_is_reported (env : Env) (w : W) :
  let w' := exec (checkLocationPermission env) w in
  (∀ e, getForegroundPermissions env = Thrown e →
     errorMsg (ui w') = Some "Error checking location permission" ∧
     permissionStatus (ui w') = permissionStatus (ui w) ∧
     issued (checkLocationPermission env) w
       = [GetForegroundPermissionsAsync; ConsoleError "Location permission error:"]) ∧
  (∀ st e, getForegroundPermissions env = Normal st → st ≠ Granted →
     requestForegroundPermissions env = Thrown e →
     errorMsg (ui w') = Some "Error checking location permission" ∧
     permissionStatus (ui w') = Some st ∧
     render (ui w') = PermissionScreen ∧
     issued (checkLocationPermission env) w
       = [GetForegroundPermissionsAsync; RequestForegroundPermissionsAsync;
          ConsoleError "Location permission error:"]).
Proof.
  destruct w as [s os lg], s as [l er ld p tr sub r], env as [g rq c wp]. cbn. split.
  - intros e ->. by js_run.
  - intros st e -> Hst ->. by destruct st; js_run.
Qed.

Lemma permission_call_failure_is_reported_witness :
  errorMsg (ui (exec (checkLocationPermission envPermissionFails) initialWorld))
    = Some "Error checking location permission" ∧
  permissionStatus (ui (exec (checkLocationPermission envPermissionFails) initialWorld))
    = None.
Proof.
  destruct (permission_call_failure_is_reported envPermissionFails initialWorld)
    as (Hread & _).
  destruct (Hread "Permissions module unavailable" eq_refl) as (Herr & Hst & _).
  split; [exact Herr|exact Hst].
Defined.

(** X6: when the permission is granted, at once or by the prompt, every
    run of [checkLocationPermission] asks for the current position
    exactly once, as its last call to the platform, records the granted
    status, renders the main screen and resets [isLoading], whether the
    fix is obtained or not.  A fix it obtains is stored, with no error;
    a fix that fails leaves the location as it was and sets the GPS
    error. *)
Theorem granted_permission_fetches_position (env : Env) (w : W) :
  (getForegroundPermissions env = Normal Granted
   ∨ (∃ st, getForegroundPermissions env = Normal st ∧ st ≠ Granted ∧
            requestForegroundPermissions env = Normal Granted)) →
  let w' := exec (checkLocationPermission env) w in
  count_event acquires (issued (checkLocationPermission env) w) = 1 ∧
  last (List.filter is_platform_call (issued (checkLocationPermission env) w))
    = Some GetCurrentPositionAsync ∧
  permissionStatus (ui w') = Some Granted ∧
  render (ui w') = MainScreen ∧
  isLoading (ui w') = false ∧
  (∀ pos, getCurrentPosition env = Normal pos →
     last (issued (checkLocationPermission env) w) = Some GetCurrentPositionAsync ∧
     location (ui w') = Some pos ∧
     errorMsg (ui w') = None) ∧
  (∀ e, getCurrentPosition env = Thrown e →
     location (ui w') = location (ui w) ∧
     errorMsg (ui w') = Some "Unable to get location. Please ensure GPS is enabled.").
Proof.
  destruct w as [s os lg], s as [l er ld p tr sub r], env as [g rq c wp]. cbn.
  intros [->|(st & -> & Hst & ->)].
  - destruct c; js_run; do 5 (split; [done|]); split; intros x Hx; by simplify_eq.
  - destruct st; try done;
      (destruct c; js_run; do 5 (split; [done|]); split; intros x Hx; by simplify_eq).
Qed.

Lemma granted_permission_fetches_position_witness :
  issued (checkLocationPermission envGrantedOnRequest) initialWorld
    = [GetForegroundPermissionsAsync; RequestForegroundPermissionsAsync;
       GetCurrentPositionAsync] ∧
  location (ui (exec (checkLocationPermission envGrantedOnRequest) initialWorld))
    = Some sampleFix ∧
  last (List.filter is_platform_call (issued (checkLocationPermission envNoFix) initialWorld))
    = Some GetCurrentPositionAsync ∧
  errorMsg (ui (exec (checkLocationPermission envNoFix) initialWorld))
    = Some "Unable to get location. Please ensure GPS is enabled.".
Proof.
  assert (Hgrant : getForegroundPermissions envGrantedOnRequest = Normal Granted
                   ∨ (∃ st, getForegroundPermissions envGrantedOnRequest = Normal st ∧
                            st ≠ Granted ∧
                            requestForegroundPermissions envGrantedOnRequest
                              = Normal Granted)).
  { right. exists Undetermined. repeat split. discriminate. }
  assert (Hgranted : getForegroundPermissions envNoFix = Normal Granted
                     ∨ (∃ st, getForegroundPermissions envNoFix = Normal st ∧
                              st ≠ Granted ∧
                              requestForegroundPermissions envNoFix = Normal Granted))
    by (by left).
  destruct (granted_permission_fetches_position envGrantedOnRequest initialWorld Hgrant)
    as (_ & _ & _ & _ & _ & Hfix & _).
  destruct (granted_permission_fetches_position envNoFix initialWorld Hgranted)
    as (_ & Hlast & _ & _ & _ & _ & Hfail).
  destruct (Hfix sampleFix eq_refl) as (_ & Hloc & _).
  destruct (Hfail "Location request timed out" eq_refl) as (_ & Herr).
  split; [reflexivity|]. split; [exact Hloc|]. split; [exact Hlast|exact Herr].
Defined.

(** X7: an error message outlives the tracking: starting or stopping the
    tracking and location updates never clear [errorMsg], so once an
    error is shown the banner stays and the info panel stays hidden, also
    while updates arrive, until [getCurrentLocation] succeeds. *)
Theorem error_outlives_tracking (env : Env) (w : W) (l : LocationObject) :
  truthy (errorMsg (ui w)) = true →
  (errorBannerShown (ui (step PressTracking env w)) = true ∧
   infoPanelShown (ui (step PressTracking env w)) = false) ∧
  (errorMsg (ui (step (LocationUpdate l) env w)) = errorMsg (ui w) ∧
   location (ui (step (LocationUpdate l) env w)) = Some l ∧
   infoPanelShown (ui (step (LocationUpdate l) env w)) = false).
Proof.
  destruct w as [s os lg], s as [lc er ld p tr sub r], env as [g rq c wp], os as [lv n].
  unfold errorBannerShown, infoPanelShown. cbn. intros Her. split.
  - destruct tr, sub as [h|]; try destruct wp; js_run;
      repeat (case_decide; js_run); try done; rewrite ?Her; try done; by destruct lc.
  - js_run. case_decide; [|done]. cbn. by rewrite Her.
Qed.

Lemma error_outlives_tracking_witness :
  let failed := step PressTracking envWatchFails mountedWorld in
  let tracking := step PressTracking envGranted failed in
  isTracking (ui tracking) = true ∧
  errorBannerShown (ui tracking) = true ∧
  infoPanelShown (ui (step (LocationUpdate restingFix) envGranted tracking)) = false.
Proof.
  cbn zeta.
  destruct (error_outlives_tracking envGranted
              (step PressTracking envWatchFails mountedWorld) restingFix eq_refl)
    as ((Hbanner & _) & _).
  destruct (error_outlives_tracking envGranted
              (step PressTracking envGranted (step PressTracking envWatchFails mountedWorld))
              restingFix eq_refl)
    as (_ & _ & _ & Hpanel).
  split; [reflexivity|]. split; [exact Hbanner|exact Hpanel].
Defined.

Section Formatting.
Context (fmul : Q → Q → Q) (toFixed : nat → Q → string) (toLocaleString : Z → string).

(** X8: the formatters treat a zero like a missing value: a speed of 0
    and a timestamp of 0 are displayed as "N/A", as an absent location,
    speed or timestamp is; a present non-zero speed is printed in km/h. *)
Theorem zero_is_displayed_as_not_available (l : LocationObject) :
  calculateSpeed fmul toFixed None = "N/A" ∧
  formatTimestamp toLocaleString None = "N/A" ∧
  formatTimestamp toLocaleString (Some 0%Z) = "N/A" ∧
  formatCoordinates toFixed None = "N/A" ∧
  (truthy_number (speed (coords l)) = false →
     calculateSpeed fmul toFixed (Some l) = "N/A") ∧
  (∀ v, speed (coords l) = Some v → Qeq_bool v 0 = false →
     calculateSpeed fmul toFixed (Some l) = toFixed 2 (fmul v 3.6) ++ " km/h").
Proof.
  repeat split.
  - unfold calculateSpeed. by intros ->.
  - unfold calculateSpeed, truthy_number. by intros v -> ->.
Qed.
End Formatting.

Lemma zero_is_displayed_as_not_available_witness :
  calculateSpeed Qmult (λ _ _, "0.00") (Some restingFix) = "N/A" ∧
  formatTimestamp (λ _, "1/1/1970") (Some (timestamp restingFix)) = "N/A".
Proof.
  destruct (zero_is_displayed_as_not_available Qmult (λ _ _, "0.00") (λ _, "1/1/1970")
              restingFix) as (_ & _ & Hts & _ & Hzero & _).
  split; [by apply Hzero|exact Hts].
Defined.

End LocationExtra.

(** ** More on the camera screen: outcomes, failures and screens *)

Module CameraExtra.
Import CameraScreen.

#[local] Hint Unfold handler checkGalleryPermission requestGalleryPermission
  handlePermissionRequest takePicture pickImageFromGallery saveToGallery
  toggleCameraType resetCamera onCameraReady : js.

(** X9: [checkGalleryPermission] only reads: it issues no permission
    request, completes normally also when the read fails, and always
    leaves a boolean in [galleryPermission], true exactly when the
    platform reported the permission as granted. *)
Theorem checkGalleryPermission_records_boolean (env : Env) (w : W) :
  let w' := exec (checkGalleryPermission env) w in
  result (checkGalleryPermission env) w = Normal () ∧
  galleryPermission (ui w')
    = Some (match getPermissions env with Normal Granted => true | _ => false end) ∧
  count_event is_request (issued (checkGalleryPermission env) w) = 0 ∧
  head (issued (checkGalleryPermission env) w) = Some MediaLibrary_getPermissionsAsync ∧
  setGalleryPermission (galleryPermission (ui w)) (ui w') = ui w.
Proof.
  destruct w as [s os lg], s as [p ct ci rdy ld gp tm cr], env as [e1 e2 e3 e4 e5 e6 e7].
  by destruct e1 as [[]|]; js_run.
Qed.

(** X10: [pickImageFromGallery] asks for no permission and calls neither
    the camera nor the media store: the one call it makes to the platform
    is the launch of the image library.  A cancelled or failed pick
    leaves the captured image as it was; a completed pick takes the first
    asset of the result, and none when the result has no asset.  In every
    case it completes normally with [isLoading] reset. *)
Theorem pickImageFromGallery_outcomes (env : Env) (w : W) :
  let w' := exec (pickImageFromGallery env) w in
  result (pickImageFromGallery env) w = Normal () ∧
  isLoading (ui w') = false ∧
  head (issued (pickImageFromGallery env) w) = Some LaunchImageLibraryAsync ∧
  count_event is_request (issued (pickImageFromGallery env) w) = 0 ∧
  count_event contacts_media_store (issued (pickImageFromGallery env) w) = 0 ∧
  count_event CameraCommit.is_capture (issued (pickImageFromGallery env) w) = 0 ∧
  count_event is_status_read (issued (pickImageFromGallery env) w) = 0 ∧
  galleryPermission (ui w') = galleryPermission (ui w) ∧
  (∀ r, launchImageLibrary env = Normal r →
     capturedImage (ui w') = if canceled r then capturedImage (ui w)
                             else head (assets r)) ∧
  (∀ e, launchImageLibrary env = Thrown e →
     capturedImage (ui w') = capturedImage (ui w) ∧
     last (issued (pickImageFromGallery env) w)
       = Some (AlertAlert "Error" "Failed to pick image from gallery")).
Proof.
  destruct w as [s os lg], s as [p ct ci rdy ld gp tm cr], env as [e1 e2 e3 e4 e5 e6 e7].
  cbn. destruct e5 as [[[] imgs]|err]; js_run;
    do 8 (split; [done|]); split; intros x Hx; by simplify_eq.
Qed.

Lemma pickImageFromGallery_outcomes_witness :
  capturedImage (ui (exec (pickImageFromGallery envGranted) openingWorld)) = None ∧
  capturedImage
    (ui (exec (pickImageFromGallery
                 (MkEnv (Normal Granted) (Normal Granted) (Normal (MkResponse Granted true))
                        (Normal samplePhoto) (Normal (MkPicked false [samplePhoto]))
                        (Normal ()) (Normal ())))
              openingWorld)) = Some samplePhoto.
Proof.
  destruct (pickImageFromGallery_outcomes envGranted openingWorld)
    as (_ & _ & _ & _ & _ & _ & _ & _ & Hcancel & _).
  destruct (pickImageFromGallery_outcomes
              (MkEnv (Normal Granted) (Normal Granted) (Normal (MkResponse Granted true))
                     (Normal samplePhoto) (Normal (MkPicked false [samplePhoto]))
                     (Normal ()) (Normal ()))
              openingWorld)
    as (_ & _ & _ & _ & _ & _ & _ & _ & Hpick & _).
  split.
  - exact (Hcancel _ eq_refl).
  - exact (Hpick _ eq_refl).
Defined.

(** X11: [takePicture] does nothing at all, and calls no hardware, while
    no camera view is attached to the ref or the camera permission is
    not granted; and a capture the hardware fails is not fatal: the
    captured image and the readiness are as before, the failure is shown
    in an alert and [isLoading] is reset. *)
Theorem takePicture_guard_and_failure (env : Env) (w : W) :
  (cameraRef_current (ui w) = false ∨ permission_granted (ui w) = false →
     result (takePicture env) w = Normal () ∧ exec (takePicture env) w = w) ∧
  (∀ e, cameraRef_current (ui w) = true → permission_granted (ui w) = true →
     takePictureAsync env = Thrown e →
     let w' := exec (takePicture env) w in
     result (takePicture env) w = Normal () ∧
     capturedImage (ui w') = capturedImage (ui w) ∧
     isCameraReady (ui w') = isCameraReady (ui w) ∧
     isLoading (ui w') = false ∧
     issued (takePicture env) w
       = [TakePictureAsync; ConsoleError "Camera error:";
          AlertAlert "Error" "Failed to take picture"]).
Proof.
  destruct w as [s os lg], s as [p ct ci rdy ld gp tm cr], env as [e1 e2 e3 e4 e5 e6 e7].
  unfold permission_granted. cbn. split.
  - intros Hguard. by destruct cr, p as [[pst []]|], Hguard; js_run.
  - intros e -> Hp ->. by destruct p as [[pst []]|]; js_run.
Qed.

Lemma takePicture_guard_and_failure_witness :
  exec (takePicture envGranted) previewWorld = previewWorld ∧
  capturedImage
    (ui (exec (takePicture
                 (MkEnv (Normal Granted) (Normal Granted) (Normal (MkResponse Granted true))
                        (Thrown "Camera is not running") (Normal (MkPicked true []))
                        (Normal ()) (Normal ())))
              readyWorld)) = None.
Proof.
  destruct (takePicture_guard_and_failure envGranted previewWorld) as (Hguard & _).
  destruct (takePicture_guard_and_failure
              (MkEnv (Normal Granted) (Normal Granted) (Normal (MkResponse Granted true))
                     (Thrown "Camera is not running") (Normal (MkPicked true []))
                     (Normal ()) (Normal ()))
              readyWorld) as (_ & Hfail).
  split.
  - apply Hguard. by left.
  - by destruct (Hfail "Camera is not running" eq_refl eq_refl eq_refl) as (_ & -> & _).
Defined.

(** X12: saving never leaves the preview: [saveToGallery] completes
    normally and changes neither the captured image, the camera
    permission, the test mode nor the lens, so the screen rendered after
    it is the one rendered before, whatever the platform answered; the
    image can be saved again. *)
Theorem saveToGallery_keeps_screen (env : Env) (w : W) :
  let w' := exec (saveToGallery env) w in
  result (saveToGallery env) w = Normal () ∧
  capturedImage (ui w') = capturedImage (ui w) ∧
  permission (ui w') = permission (ui w) ∧
  testMode (ui w') = testMode (ui w) ∧
  cameraType (ui w') = cameraType (ui w) ∧
  render (ui w') = render (ui w) ∧
  offered (ui w') PressSave = offered (ui w) PressSave.
Proof.
  destruct w as [s os lg], s as [p ct ci rdy ld gp tm cr], env as [e1 e2 e3 e4 e5 e6 e7].
  destruct ci as [img|]; [|by js_run].
  by destruct gp as [[]|], e2 as [[]|], e6, e7; js_run.
Qed.

(** X13: a gallery permission granted by the request made during a save
    is cached: that save goes on to create the asset from the URI of the
    captured image, and the next save issues no permission request. *)
Theorem saveToGallery_caches_granted_permission
    (env env' : Env) (w : W) (image : ImageAsset) :
  capturedImage (ui w) = Some image →
  gallery_granted (ui w) = false →
  requestPermissions env = Normal Granted →
  let w' := exec (saveToGallery env) w in
  galleryPermission (ui w') = Some true ∧
  firstn 2 (issued (saveToGallery env) w)
    = [MediaLibrary_requestPermissionsAsync; MediaLibrary_createAssetAsync (uri image)] ∧
  count_event is_request (issued (saveToGallery env') w') = 0.
Proof.
  destruct w as [s os lg], s as [p ct ci rdy ld gp tm cr], env as [e1 e2 e3 e4 e5 e6 e7],
    env' as [f1 f2 f3 f4 f5 f6 f7].
  unfold gallery_granted. cbn. intros -> Hg ->.
  destruct gp as [[]|]; try done;
    by destruct e6, e7, f6, f7; js_run.
Qed.

Lemma saveToGallery_caches_granted_permission_witness :
  galleryPermission (ui (exec (saveToGallery envGranted) previewNoGalleryWorld)) = Some true ∧
  count_event is_request
    (issued (saveToGallery envGranted)
            (exec (saveToGallery envGranted) previewNoGalleryWorld)) = 0.
Proof.
  destruct (saveToGallery_caches_granted_permission envGranted envGranted
              previewNoGalleryWorld samplePhoto eq_refl eq_refl eq_refl)
    as (Hcache & _ & Hnext).
  split; [exact Hcache|exact Hnext].
Defined.

(** X14: with an image and the gallery permission, a save calls
    [createAssetAsync] with the URI of the captured image and then
    [createAlbumAsync] for the album "MyAppCamera".  If the asset cannot
    be created the album call is not made; if the album call fails the
    asset has already been created and the user is still told that the
    save failed.  The success alert is shown only when both calls
    succeed, and [isLoading] is reset in every case. *)
Theorem saveToGallery_save_outcomes (env : Env) (w : W) (image : ImageAsset) :
  capturedImage (ui w) = Some image →
  gallery_granted (ui w) = true →
  let w' := exec (saveToGallery env) w in
  isLoading (ui w') = false ∧
  (∀ e, createAsset env = Thrown e →
     issued (saveToGallery env) w
       = [MediaLibrary_createAssetAsync (uri image); ConsoleError "Save error:";
          AlertAlert "Error" "Failed to save image to gallery"]) ∧
  (∀ e, createAsset env = Normal () → createAlbum env = Thrown e →
     issued (saveToGallery env) w
       = [MediaLibrary_createAssetAsync (uri image);
          MediaLibrary_createAlbumAsync "MyAppCamera"; ConsoleError "Save error:";
          AlertAlert "Error" "Failed to save image to gallery"]) ∧
  (createAsset env = Normal () → createAlbum env = Normal () →
     issued (saveToGallery env) w
       = [MediaLibrary_createAssetAsync (uri image);
          MediaLibrary_createAlbumAsync "MyAppCamera";
          AlertAlert "Success" "Image saved to gallery!";
          ConsoleLog "Image saved to gallery"]).
Proof.
  destruct w as [s os lg], s as [p ct ci rdy ld gp tm cr], env as [e1 e2 e3 e4 e5 e6 e7].
  unfold gallery_granted. cbn. intros -> Hg.
  destruct gp as [[]|]; try done.
  split; [by destruct e6, e7; js_run|].
  split; [|split].
  - intros e ->. by js_run.
  - intros e -> ->. by js_run.
  - intros -> ->. by js_run.
Qed.

Lemma saveToGallery_save_outcomes_witness :
  issued (saveToGallery
            (MkEnv (Normal Granted) (Normal Granted) (Normal (MkResponse Granted true))
                   (Normal samplePhoto) (Normal (MkPicked true []))
                   (Normal ()) (Thrown "Album could not be created")))
         previewWorld
    = [MediaLibrary_createAssetAsync "file:///cache/Camera/photo.jpg";
       MediaLibrary_createAlbumAsync "MyAppCamera"; ConsoleError "Save error:";
       AlertAlert "Error" "Failed to save image to gallery"].
Proof.
  destruct (saveToGallery_save_outcomes
              (MkEnv (Normal Granted) (Normal Granted) (Normal (MkResponse Granted true))
                     (Normal samplePhoto) (Normal (MkPicked true []))
                     (Normal ()) (Thrown "Album could not be created"))
              previewWorld samplePhoto eq_refl eq_refl) as (_ & _ & Halbum & _).
  exact (Halbum "Album could not be created" eq_refl eq_refl).
Defined.

(** X15: capture and retake are a round trip on the screen: from the
    camera view, a capture that succeeds renders the preview, where the
    capture button is gone and Save and Retake are offered; [resetCamera]
    then renders the camera view again with every cell as before the
    capture, so the capture button is enabled at once whenever the camera
    had reported ready before: the readiness is not established anew. *)
Theorem capture_then_retake_round_trip (env : Env) (w : W) (photo : ImageAsset) :
  render (ui w) = CameraViewScreen →
  cameraRef_current (ui w) = true →
  isLoading (ui w) = false →
  takePictureAsync env = Normal photo →
  let captured := exec (takePicture env) w in
  let retaken := exec resetCamera captured in
  render (ui captured) = PreviewScreen ∧
  offered (ui captured) PressCapture = false ∧
  offered (ui captured) PressSave = true ∧
  offered (ui captured) PressRetake = true ∧
  ui retaken = ui w ∧
  render (ui retaken) = CameraViewScreen ∧
  offered (ui retaken) PressCapture = isCameraReady (ui w).
Proof.
  destruct w as [s os lg], s as [p ct ci rdy ld gp tm cr], env as [e1 e2 e3 e4 e5 e6 e7].
  unfold render, offered, render. cbn. intros Hr -> -> ->.
  by destruct p as [[pst []]|], tm, ci; js_run.
Qed.

Lemma capture_then_retake_round_trip_witness :
  render (ui (exec (takePicture envGranted) readyWorld)) = PreviewScreen ∧
  ui (exec resetCamera (exec (takePicture envGranted) readyWorld)) = ui readyWorld ∧
  offered (ui (exec resetCamera (exec (takePicture envGranted) readyWorld))) PressCapture
    = true.
Proof.
  destruct (capture_then_retake_round_trip envGranted readyWorld samplePhoto
              eq_refl eq_refl eq_refl eq_refl) as (Hprev & _ & _ & _ & Hui & _ & Hcap).
  split; [exact Hprev|]. split; [exact Hui|exact Hcap].
Defined.

(** X16: the test mode 'granted' cannot be left: once it is set and the
    permission has loaded, every handler the screen offers keeps it set,
    so the permission screen is rendered ever after, and neither the
    camera view nor the preview, also after the permission is granted. *)
Theorem test_mode_granted_is_absorbing (ev : UIEvent) (env : Env) (w : W) :
  testMode (ui w) = testGranted →
  is_Some (permission (ui w)) →
  offered (ui w) ev = true →
  let w' := exec (handler ev env) w in
  testMode (ui w') = testGranted ∧
  is_Some (permission (ui w')) ∧
  render (ui w') = PermissionScreen ∧
  offered (ui w') PressCapture = false ∧
  offered (ui w') PressSave = false.
Proof.
  destruct w as [s os lg], s as [p ct ci rdy ld gp tm cr], env as [e1 e2 e3 e4 e5 e6 e7].
  unfold offered, render. cbn. intros -> [r ->] Hoff.
  destruct ev; try done.
  - by destruct e1 as [[]|]; js_run.
  - by destruct e3 as [[? []]|]; js_run.
Qed.

Lemma test_mode_granted_is_absorbing_witness :
  permission_granted (ui testGrantedWorld) = true ∧
  render (ui (exec (handler PressGrantPermission envGranted) testGrantedWorld))
    = PermissionScreen.
Proof.
  assert (Hp : is_Some (permission (ui testGrantedWorld))) by (by eexists).
  destruct (test_mode_granted_is_absorbing PressGrantPermission envGranted
              testGrantedWorld eq_refl Hp eq_refl) as (_ & _ & Hr & _).
  split; [reflexivity|exact Hr].
Defined.

(** X17: [handlePermissionRequest] completes normally with [isLoading]
    reset.  An answer of the platform is stored and announced: the
    success alert exactly when it is granted, the permission-required
    alert otherwise; when the request itself fails the permission is left
    as it was and the failure is shown. *)
Theorem handlePermissionRequest_outcomes (env : Env) (w : W) :
  let w' := exec (handlePermissionRequest env) w in
  result (handlePermissionRequest env) w = Normal () ∧
  isLoading (ui w') = false ∧
  (∀ r, requestPermission env = Normal r →
     permission (ui w') = Some r ∧
     issued (handlePermissionRequest env) w
       = [RequestPermission;
          if granted r then AlertAlert "Success" "Camera permission granted!"
          else AlertAlert "Permission Required"
                 "Camera access is required to take photos. Please enable camera permission in your device settings."]) ∧
  (∀ e, requestPermission env = Thrown e →
     permission (ui w') = permission (ui w) ∧
     issued (handlePermissionRequest env) w
       = [RequestPermission; ConsoleError "Permission request error:";
          AlertAlert "Error" "Failed to request camera permission"]).
Proof.
  destruct w as [s os lg], s as [p ct ci rdy ld gp tm cr], env as [e1 e2 e3 e4 e5 e6 e7].
  cbn. destruct e3 as [[pst []]|err]; js_run;
    do 2 (split; [done|]); split; intros x Hx; by simplify_eq.
Qed.

Lemma handlePermissionRequest_outcomes_witness :
  permission (ui (exec (handlePermissionRequest envDenied) openingWorld))
    = Some (MkResponse Denied false) ∧
  last (issued (handlePermissionRequest envDenied) openingWorld)
    = Some (AlertAlert "Permission Required"
              "Camera access is required to take photos. Please enable camera permission in your device settings.").
Proof.
  destruct (handlePermissionRequest_outcomes envDenied openingWorld) as (_ & _ & Hans & _).
  destruct (Hans _ eq_refl) as (Hp & Hev).
  split; [exact Hp|]. by rewrite Hev.
Defined.

(** X18: no handler of the camera screen lets an exception of the
    platform escape, and none resets the readiness of the camera: a
    handler changes [isCameraReady] only from false to true, and only
    [onCameraReady] does. *)
Theorem camera_readiness_is_never_reset (ev : UIEvent) (env : Env) (w : W) :
  let w' := exec (handler ev env) w in
  result (handler ev env) w = Normal () ∧
  isCameraReady (ui w')
    = match ev with
      | CameraReady => true
      | _ => isCameraReady (ui w)
      end.
Proof.
  destruct w as [s os lg], s as [p ct ci rdy ld gp tm cr], env as [e1 e2 e3 e4 e5 e6 e7].
  destruct ev; try (by js_run).
  - by destruct e1 as [[]|]; js_run.
  - by destruct e3 as [[? []]|]; js_run.
  - by destruct ci, gp as [[]|], e2 as [[]|], e6, e7; js_run.
  - by destruct e5 as [[[] ?]|]; js_run.
  - unfold permission_granted. js_run.
    by destruct cr, p as [[? []]|], e4; js_run.
Qed.

End CameraExtra.

(** ** More on the login / register form: validation, persistence, logout *)

Module PracticeExtra.
Import Practice PracticeView.

#[local] Hint Unfold handleSubmit saveUserData clearUserData loadUserData toggleMode
  handleLogout : js.

Section Proofs.
Context {User : Type}.
Context (JSON_stringify : User → string) (JSON_parse : string → Completion User).
Context (user_truthy : User → bool).

Abbreviation W := (World (State (User := User)) (gmap string string) Event).

(** X19: an incomplete form is never submitted: with the e-mail or the
    password empty, or the name empty in register mode, [handleSubmit]
    only shows the fill-in alert; no request is sent and no cell, not
    even [loading], is written.  A complete form sends exactly one POST,
    to /login with the e-mail and the password or to /register with the
    name as well, and [loading] is reset when the handler returns. *)
Theorem handleSubmit_validates_form (env : Env) (w : W) :
  let run := handleSubmit JSON_stringify env in
  result run w = Normal () ∧
  (formComplete (ui w) = false →
     issued run w = [AlertAlert "Error" (Some "Please fill in all fields")] ∧
     ui (exec run w) = ui w ∧
     platform (exec run w) = platform w) ∧
  (formComplete (ui w) = true →
     head (issued run w)
       = Some (if isLogin (ui w)
               then Fetch (API_BASE_URL ++ "/login")
                          [("email", email (ui w)); ("password", password (ui w))]
               else Fetch (API_BASE_URL ++ "/register")
                          [("name", name (ui w)); ("email", email (ui w));
                           ("password", password (ui w))]) ∧
     length (List.filter (λ e, match e with Fetch _ _ => true | _ => false end)
                         (issued run w)) = 1 ∧
     loading (ui (exec run w)) = false).
Proof using Type.
  clear JSON_parse user_truthy.
  destruct w as [s store lg], s as [n e p lgn ld cu], env as [f g st d].
  unfold formComplete. cbn.
  destruct (filled e) eqn:He, (filled p) eqn:Hp, lgn, (filled n) eqn:Hn;
    js_run; rewrite ?He, ?Hp, ?Hn; js_run;
    (split; [|split; intros; try done]);
    by destruct f as [[[] [[m [u|]]|]]|], st; js_run.
Qed.

(** X20: an accepted login makes the user of the response the current
    user, empties the e-mail and the password fields and keeps the name
    and the mode.  The form is hidden afterwards exactly when that user
    is truthy: a 2xx answer whose user is absent or falsy (such as null)
    shows the success alert and leaves the form shown.  A user that is
    present, whatever its value, is serialised and written: when the
    secure store accepts the write it holds that text under "userData"
    and is otherwise as before, the text of null for a null user; when it
    refuses, or when the user is absent (the store rejects the undefined
    value), nothing is stored. *)
Theorem accepted_login_outcomes (env : Env) (w : W) (data : Data (User := User)) :
  isLogin (ui w) = true →
  filled (email (ui w)) = true →
  filled (password (ui w)) = true →
  fetch env = Normal (MkResponse true (Normal data)) →
  let run := handleSubmit JSON_stringify env in
  let w' := exec run w in
  currentUser (ui w') = user data ∧
  email (ui w') = "" ∧ password (ui w') = "" ∧
  name (ui w') = name (ui w) ∧ isLogin (ui w') = true ∧ loading (ui w') = false ∧
  alerts (issued run w) = [("Success", message data)] ∧
  formShown user_truthy (ui w')
    = match user data with
      | Some u => negb (user_truthy u)
      | None => true
      end ∧
  (∀ u, user data = Some u → setItem env = Normal () →
     platform w' = <["userData" := JSON_stringify u]> (platform w)) ∧
  (∀ u e, user data = Some u → setItem env = Thrown e →
     platform w' = platform w ∧
     ConsoleError "Error saving user data:" ∈ issued run w) ∧
  (user data = None →
     platform w' = platform w ∧
     store_writes (issued run w) = [SecureStore_setItemAsync "userData" None]).
Proof using Type.
  clear JSON_parse.
  destruct w as [s store lg], s as [n e p lgn ld cu], env as [f g st d], data as [m u].
  cbn. intros -> He Hp ->. js_run. rewrite He, Hp. js_run.
  destruct u as [u|], st as [[]|err]; js_run;
    do 8 (split; [done|]); (split; [|split]); intros; simplify_eq; try done.
  split; [done|]. set_solver.
Qed.

(** X21: when the request fails, or the body of the answer cannot be
    parsed (be the status 2xx or not), a complete form shows the network
    alert; apart from [loading], which is reset, every cell and the
    secure store are as before, and no write to the store is attempted. *)
Theorem network_error_changes_nothing (env : Env) (w : W) (e : string) :
  formComplete (ui w) = true →
  (fetch env = Thrown e ∨ ∃ status, fetch env = Normal (MkResponse status (Thrown e))) →
  let run := handleSubmit JSON_stringify env in
  result run w = Normal () ∧
  ui (exec run w) = setLoading false (ui w) ∧
  platform (exec run w) = platform w ∧
  alerts (issued run w)
    = [("Error", Some "Network error. Please make sure the backend server is running.")] ∧
  store_writes (issued run w) = [].
Proof using Type.
  clear JSON_parse user_truthy.
  destruct w as [s store lg], s as [n em p lgn ld cu], env as [f g st d].
  unfold formComplete. cbn. intros Hc Hf.
  destruct (filled em) eqn:He, (filled p) eqn:Hp; try done.
  destruct lgn, (filled n) eqn:Hn; try done;
    destruct Hf as [->|[status ->]]; js_run; rewrite ?He, ?Hp, ?Hn; by js_run.
Qed.

(** X22: writes to the secure store, and changes of the current user,
    come from an accepted login only: if [handleSubmit] attempts a write,
    changes the store or changes [currentUser], the form was in login
    mode and the answer was a 2xx response with a parsed body. *)
Theorem only_accepted_login_persists (env : Env) (w : W) :
  let run := handleSubmit JSON_stringify env in
  (store_writes (issued run w) ≠ [] ∨ platform (exec run w) ≠ platform w
   ∨ currentUser (ui (exec run w)) ≠ currentUser (ui w)) →
  isLogin (ui w) = true ∧
  ∃ data, fetch env = Normal (MkResponse true (Normal data)).
Proof using Type.
  clear JSON_parse user_truthy.
  destruct w as [s store lg], s as [n em p lgn ld cu], env as [f g st d].
  cbn. intros Hchange.
  destruct (filled em) eqn:He, (filled p) eqn:Hp, lgn, (filled n) eqn:Hn;
    js_run; rewrite ?He, ?Hp, ?Hn in Hchange; js_run;
    try (by destruct Hchange as [|[|]]);
    destruct f as [[[] [dat|]]|]; js_run;
    try (by destruct Hchange as [|[|]]);
    (split; [done|by eexists]).
Qed.

(** X23: what [saveUserData] stores, [loadUserData] restores: after a
    write the store accepted, a load the store serves makes the saved
    user the current user, whoever was current before, provided the
    parser inverts the serialiser on that user and the serialised text is
    not empty. *)
Theorem save_then_load_restores_user (env env' : Env) (w : W) (u : User) :
  setItem env = Normal () →
  getItem env' = Normal () →
  JSON_parse (JSON_stringify u) = Normal u →
  filled (JSON_stringify u) = true →
  let saved := exec (saveUserData JSON_stringify env (Some u)) w in
  let loaded := exec (loadUserData JSON_parse env') saved in
  platform saved !! "userData" = Some (JSON_stringify u) ∧
  currentUser (ui loaded) = Some u ∧
  platform loaded = platform saved.
Proof using Type.
  clear user_truthy.
  destruct w as [s store lg], s as [n em p lgn ld cu], env as [f g st d],
    env' as [f' g' st' d'].
  cbn. intros -> -> Hparse Hfilled. js_run.
  rewrite lookup_insert_eq. unfold truthy, filled in *. cbn.
  rewrite Hfilled, Hparse. by js_run.
Qed.

(** X24: [loadUserData] never writes the store and never throws, and it
    leaves the current user alone when there is nothing usable to load:
    when the store cannot be read, holds nothing or an empty text under
    "userData", or holds a text that does not parse. *)
Theorem loadUserData_keeps_user_without_data (env : Env) (w : W) :
  let w' := exec (loadUserData JSON_parse env) w in
  result (loadUserData JSON_parse env) w = Normal () ∧
  platform w' = platform w ∧
  ((∃ e, getItem env = Thrown e)
   ∨ truthy (platform w !! "userData") = false
   ∨ (∃ text e, platform w !! "userData" = Some text ∧ JSON_parse text = Thrown e) →
   currentUser (ui w') = currentUser (ui w)).
Proof using Type.
  clear JSON_stringify user_truthy.
  destruct w as [s store lg], s as [n em p lgn ld cu], env as [f g st d]. cbn.
  destruct g as [[]|err]; js_run; [|done].
  destruct (truthy (store !! "userData")) eqn:Ht; js_run; [|done].
  destruct (store !! "userData") as [text|] eqn:Hs; cbn; [|done].
  destruct (JSON_parse text) as [u|err] eqn:Hp; js_run; (split; [done|]); (split; [done|]).
  - intros [[e [=]]|[[=]|(text' & e & [= <-] & Hp')]]. congruence.
  - done.
Qed.

(** X25: [handleLogout] always ends with nobody logged in, the form
    shown and the logged-out alert, also when the secure store fails.
    When the store accepts the deletion, "userData" is gone, the other
    entries are untouched and a later load logs nobody in; when it
    refuses, the store still holds what it held. *)
Theorem handleLogout_outcomes (env env' : Env) (w : W) :
  let out := exec (handleLogout env) w in
  result (handleLogout env) w = Normal () ∧
  currentUser (ui out) = None ∧
  formShown user_truthy (ui out) = true ∧
  last (issued (handleLogout env) w)
    = Some (AlertAlert "Logged Out" (Some "You have been logged out successfully")) ∧
  (deleteItem env = Normal () →
     platform out = delete "userData" (platform w) ∧
     currentUser (ui (exec (loadUserData JSON_parse env') out)) = None) ∧
  (∀ e, deleteItem env = Thrown e → platform out = platform w).
Proof using Type.
  clear JSON_stringify.
  destruct w as [s store lg], s as [n em p lgn ld cu], env as [f g st d],
    env' as [f' g' st' d']. cbn.
  destruct d as [[]|err]; js_run; do 4 (split; [done|]); split; try done.
  intros _. split; [done|].
  rewrite lookup_delete_eq. by destruct g'; js_run.
Qed.

End Proofs.

Lemma handleSubmit_validates_form_witness :
  issued (handleSubmit sampleStringify envRegistered)
         (MkWorld (MkState "" "ada@example.org" "s3cret" false false None) ∅ [])
    = [AlertAlert "Error" (Some "Please fill in all fields")] ∧
  head (issued (handleSubmit sampleStringify envRegistered) filledRegister)
    = Some (Fetch "http://172.17.24.213:5000/api/register"
                  [("name", "Ada"); ("email", "ada@example.org"); ("password", "s3cret")]).
Proof.
  destruct (handleSubmit_validates_form sampleStringify envRegistered
              (MkWorld (MkState "" "ada@example.org" "s3cret" false false None) ∅ []))
    as (_ & Hincomplete & _).
  destruct (handleSubmit_validates_form sampleStringify envRegistered filledRegister)
    as (_ & _ & Hcomplete).
  split.
  - by destruct (Hincomplete eq_refl) as (-> & _).
  - by destruct (Hcomplete eq_refl) as (-> & _).
Defined.

Lemma accepted_login_outcomes_witness :
  currentUser (ui (exec (handleSubmit sampleStringify envLoggedIn) filledLogin)) = Some "ada" ∧
  formShown sampleTruthy (ui (exec (handleSubmit sampleStringify envLoggedIn) filledLogin))
    = false ∧
  platform (exec (handleSubmit sampleStringify envLoggedIn) filledLogin)
    = {["userData" := "ada"]} ∧
  platform (exec (handleSubmit sampleStringify envStoreFails) filledLogin) = ∅ ∧
  platform (exec (handleSubmit sampleStringify envNullUser) filledLogin)
    = {["userData" := "null"]} ∧
  formShown sampleTruthy (ui (exec (handleSubmit sampleStringify envNullUser) filledLogin))
    = true.
Proof.
  destruct (accepted_login_outcomes sampleStringify sampleTruthy envLoggedIn filledLogin
              (MkData (Some "Login successful") (Some "ada"))
              eq_refl eq_refl eq_refl eq_refl)
    as (Huser & _ & _ & _ & _ & _ & _ & Hform & Hstored & _).
  destruct (accepted_login_outcomes sampleStringify sampleTruthy envStoreFails filledLogin
              (MkData (Some "Login successful") (Some "ada"))
              eq_refl eq_refl eq_refl eq_refl)
    as (_ & _ & _ & _ & _ & _ & _ & _ & _ & Hrefused & _).
  destruct (accepted_login_outcomes sampleStringify sampleTruthy envNullUser filledLogin
              (MkData (Some "Login successful") (Some "null"))
              eq_refl eq_refl eq_refl eq_refl)
    as (_ & _ & _ & _ & _ & _ & _ & Hnullform & Hnull & _).
  split; [exact Huser|]. split; [exact Hform|]. split; [|split; [|split]].
  - by rewrite (Hstored "ada" eq_refl eq_refl).
  - by destruct (Hrefused "ada" "Keychain unavailable" eq_refl eq_refl) as (-> & _).
  - by rewrite (Hnull "null" eq_refl eq_refl).
  - exact Hnullform.
Defined.

Lemma network_error_changes_nothing_witness :
  ui (exec (handleSubmit sampleStringify envOffline) filledLogin) = ui filledLogin ∧
  platform (exec (handleSubmit sampleStringify envOffline) filledLogin) = ∅.
Proof.
  assert (Hfail : fetch envOffline = Thrown "Network request failed"
                  ∨ ∃ status, fetch envOffline
                              = Normal (MkResponse status (Thrown "Network request failed")))
    by (by left).
  destruct (network_error_changes_nothing sampleStringify envOffline filledLogin
              "Network request failed" eq_refl Hfail) as (_ & Hui & Hstore & _).
  split; [by rewrite Hui|exact Hstore].
Defined.

Lemma only_accepted_login_persists_witness :
  isLogin (ui filledLogin) = true ∧
  ∃ data, fetch envLoggedIn = Normal (MkResponse true (Normal data)).
Proof.
  apply (only_accepted_login_persists sampleStringify envLoggedIn filledLogin).
  left. vm_compute. discriminate.
Defined.

Lemma save_then_load_restores_user_witness :
  currentUser
    (ui (exec (loadUserData sampleParse envLoggedIn)
           (exec (saveUserData sampleStringify envLoggedIn (Some "ada")) filledLogin)))
    = Some "ada".
Proof.
  by destruct (save_then_load_restores_user sampleStringify sampleParse envLoggedIn
                 envLoggedIn filledLogin "ada" eq_refl eq_refl eq_refl eq_refl)
    as (_ & -> & _).
Defined.

Lemma loadUserData_keeps_user_without_data_witness :
  currentUser (ui (exec (loadUserData sampleParse envLoggedIn) filledLogin)) = None ∧
  currentUser (ui (exec (loadUserData sampleParse envStoreFails) loggedInWorld))
    = Some "ada".
Proof.
  destruct (loadUserData_keeps_user_without_data sampleParse envLoggedIn filledLogin)
    as (_ & _ & Hempty).
  destruct (loadUserData_keeps_user_without_data sampleParse envStoreFails loggedInWorld)
    as (_ & _ & Hfails).
  split.
  - rewrite Hempty; [done|]. by right; left.
  - rewrite Hfails; [done|]. left. by eexists.
Defined.

Lemma handleLogout_outcomes_witness :
  platform (exec (handleLogout envLoggedIn) loggedInWorld) = ∅ ∧
  platform (exec (handleLogout envStoreFails) loggedInWorld) = {["userData" := "ada"]} ∧
  currentUser (ui (exec (handleLogout envStoreFails) loggedInWorld)) = None.
Proof.
  destruct (handleLogout_outcomes sampleParse sampleTruthy envLoggedIn envLoggedIn
              loggedInWorld) as (_ & _ & _ & _ & Hdeleted & _).
  destruct (handleLogout_outcomes sampleParse sampleTruthy envStoreFails envLoggedIn
              loggedInWorld) as (_ & Hnone & _ & _ & _ & Hkept).
  split; [|split].
  - destruct (Hdeleted eq_refl) as (-> & _). reflexivity.
  - by rewrite (Hkept "Keychain unavailable" eq_refl).
  - exact Hnone.
Defined.

End PracticeExtra.

(** ** The colour scheme hook *)

Module ThemeExtra.
Import Theme.

Lemma colorSchemeAfter_snoc natives native :
  colorSchemeAfter (natives ++ [native])
    = colorSchemeEffect native (colorSchemeAfter natives).
Proof. unfold colorSchemeAfter. by rewrite foldl_app. Qed.

(** X26: [useColorScheme] reports the last native scheme delivered that
    was not null, and light when there was none: a null native scheme
    never resets the scheme, and exactly one of [isDark] and [isLight]
    holds. *)
Theorem useColorScheme_keeps_last_native (natives : list (option ColorSchemeName)) :
  colorSchemeAfter natives = default light (last (omap id natives)) ∧
  colorSchemeAfter (natives ++ [None]) = colorSchemeAfter natives ∧
  isDark (colorSchemeAfter natives) = negb (isLight (colorSchemeAfter natives)).
Proof.
  split; [|split].
  - induction natives as [|native natives IH] using rev_ind; [done|].
    rewrite colorSchemeAfter_snoc, omap_app, IH. cbn.
    destruct native as [scheme|]; cbn.
    + by rewrite last_snoc.
    + by rewrite app_nil_r.
  - apply colorSchemeAfter_snoc.
  - by destruct (colorSchemeAfter natives).
Qed.

End ThemeExtra.
